(** * FIQ demonstration driver: drivers/irqchip/firq/firq_driver.c

    A shallow embedding of the driver and of the kernel services it calls.
    The driver is embedded function by function; the kernel services
    (MMIO stores, the FIQ vector, per-CPU work items, the platform bus) are
    modelled as operations on an explicit machine state [world], and every
    observable action is appended, in program order, to [trace]. *)

From Stdlib Require Import ZArith String.
From stdpp Require Import gmap strings list.

Local Open Scope Z_scope.

(** ** Machine words and errno values *)

(** A cast to [u32] (and to [unsigned int]) keeps the low 32 bits. *)
Definition u32 (z : Z) : Z := z mod 2 ^ 32.
#[global] Arguments u32 : simpl never.

(** include/uapi/asm-generic/errno-base.h *)
Definition ENOMEM : Z := 12.
Definition EBUSY : Z := 16.
Definition ENODEV : Z := 19.
Definition EINVAL : Z := 22.

Definition COUNTER_MAX : Z := 1000.
Definition DRV_NAME : string := "fiq".

(** ** Data of the driver *)

(** [struct firq_priv]: three mapped register windows (as addresses, 0 is
    NULL) and the interrupt line. *)
Record firq_priv := {
  gic_cpu_regs : Z;
  ocram_regs : Z;
  epit2_regs : Z;
  irq : Z
}.

(** [devm_kzalloc] hands out a zeroed object; the fields are then assigned
    one at a time. *)
Definition priv_zero : firq_priv :=
  {| gic_cpu_regs := 0; ocram_regs := 0; epit2_regs := 0; irq := 0 |}.

Definition set_irq (v : Z) (p : firq_priv) : firq_priv :=
  {| gic_cpu_regs := gic_cpu_regs p; ocram_regs := ocram_regs p;
     epit2_regs := epit2_regs p; irq := v |}.
Definition set_gic_cpu_regs (v : Z) (p : firq_priv) : firq_priv :=
  {| gic_cpu_regs := v; ocram_regs := ocram_regs p;
     epit2_regs := epit2_regs p; irq := irq p |}.
Definition set_ocram_regs (v : Z) (p : firq_priv) : firq_priv :=
  {| gic_cpu_regs := gic_cpu_regs p; ocram_regs := v;
     epit2_regs := epit2_regs p; irq := irq p |}.
Definition set_epit2_regs (v : Z) (p : firq_priv) : firq_priv :=
  {| gic_cpu_regs := gic_cpu_regs p; ocram_regs := ocram_regs p;
     epit2_regs := v; irq := irq p |}.

(** [struct pt_regs] of 32-bit ARM: eighteen words. *)
Record pt_regs := {
  ARM_r0 : Z; ARM_r1 : Z; ARM_r2 : Z; ARM_r3 : Z; ARM_r4 : Z; ARM_r5 : Z;
  ARM_r6 : Z; ARM_r7 : Z; ARM_r8 : Z; ARM_r9 : Z; ARM_r10 : Z;
  ARM_fp : Z; ARM_ip : Z; ARM_sp : Z; ARM_lr : Z; ARM_pc : Z;
  ARM_cpsr : Z; ARM_ORIG_r0 : Z
}.

(** [fiq_regs.ARM_sp = v] *)
Definition set_ARM_sp (v : Z) (r : pt_regs) : pt_regs :=
  {| ARM_r0 := ARM_r0 r; ARM_r1 := ARM_r1 r; ARM_r2 := ARM_r2 r;
     ARM_r3 := ARM_r3 r; ARM_r4 := ARM_r4 r; ARM_r5 := ARM_r5 r;
     ARM_r6 := ARM_r6 r; ARM_r7 := ARM_r7 r; ARM_r8 := ARM_r8 r;
     ARM_r9 := ARM_r9 r; ARM_r10 := ARM_r10 r; ARM_fp := ARM_fp r;
     ARM_ip := ARM_ip r; ARM_sp := v; ARM_lr := ARM_lr r;
     ARM_pc := ARM_pc r; ARM_cpsr := ARM_cpsr r;
     ARM_ORIG_r0 := ARM_ORIG_r0 r |}.

(** The registers a core banks for FIQ mode: r8_fiq .. r14_fiq. *)
Record fiq_bank := {
  r8_fiq : Z; r9_fiq : Z; r10_fiq : Z; fp_fiq : Z; ip_fiq : Z;
  sp_fiq : Z; lr_fiq : Z
}.

Definition with_sp_fiq (v : Z) (b : fiq_bank) : fiq_bank :=
  {| r8_fiq := r8_fiq b; r9_fiq := r9_fiq b; r10_fiq := r10_fiq b;
     fp_fiq := fp_fiq b; ip_fiq := ip_fiq b; sp_fiq := v;
     lr_fiq := lr_fiq b |}.

(** What the platform bus answers for one device: whether the managed
    allocation succeeds, the result of [platform_get_irq(pdev, 0)], and the
    virtual address [devm_ioremap] returns for a physical window (0: NULL). *)
Record platform_device := {
  pd_alloc_ok : bool;
  pd_irq : Z;
  pd_ioremap : Z → Z → Z
}.

(** Link-time and boot-time constants: the two symbols that delimit the
    handler blob, and the CPUs of [cpu_possible_mask] in iteration order. *)
Record system := {
  firq_fiq_handler : Z;
  firq_fiq_handler_end : Z;
  cpu_possible : list Z
}.

(** ** Observable actions *)

Inductive event :=
| EvAlloc (ok : bool)
| EvGetIrq (line : Z)
| EvIoremap (phys size virt : Z)
| EvLog (is_err : bool) (msg : string)
| EvHexDump (addr len : Z)
| EvClaimFiq (name : string) (ret : Z)
| EvReleaseFiq (name : string)
| EvSetFiqHandler (start len : Z)
| EvSetDrvdata (p : firq_priv)
| EvEnableFiq (line : Z)
| EvDisableFiq (line : Z)
| EvLocalFiqDisable (cpu : Z)
| EvLocalFiqEnable (cpu : Z)
| EvWritel (cpu : Z) (val addr : Z)
| EvDmb (cpu : Z)
| EvGetFiqRegs (cpu : Z)
| EvSetFiqRegs (cpu : Z) (b : fiq_bank)
| EvWorkBegin (cpu : Z)
| EvWorkEnd (cpu : Z) (ret : Z)
| EvSingleton (b : bool).

(** ** Machine state *)

Record world := {
  firq_singleton : bool;        (* static bool firq_singleton *)
  drvdata : option firq_priv;   (* the device's driver-data slot *)
  cur_cpu : Z;                  (* the core executing the code *)
  iomem : gmap Z Z;             (* I/O memory: last word stored per address *)
  fiq_banked : Z → fiq_bank;    (* FIQ-mode register bank of each core *)
  fiq_masked : gset Z;          (* cores with the FIQ mask bit set *)
  fiq_claimed : bool;           (* this driver holds the FIQ vector *)
  fiq_vector : option (Z * Z);  (* handler bound to the vector: start, length *)
  fiq_lines : gset Z;           (* FIQ lines enabled at the controller *)
  fiq_owner_ret : Z;            (* answer of the vector's holder to a claim *)
  stack_junk : pt_regs;         (* contents of an uninitialised local *)
  trace : list event
}.

Definition upd_singleton (b : bool) (w : world) : world :=
  {| firq_singleton := b; drvdata := drvdata w; cur_cpu := cur_cpu w;
     iomem := iomem w; fiq_banked := fiq_banked w; fiq_masked := fiq_masked w;
     fiq_claimed := fiq_claimed w; fiq_vector := fiq_vector w;
     fiq_lines := fiq_lines w; fiq_owner_ret := fiq_owner_ret w;
     stack_junk := stack_junk w; trace := trace w |}.
Definition upd_drvdata (d : option firq_priv) (w : world) : world :=
  {| firq_singleton := firq_singleton w; drvdata := d; cur_cpu := cur_cpu w;
     iomem := iomem w; fiq_banked := fiq_banked w; fiq_masked := fiq_masked w;
     fiq_claimed := fiq_claimed w; fiq_vector := fiq_vector w;
     fiq_lines := fiq_lines w; fiq_owner_ret := fiq_owner_ret w;
     stack_junk := stack_junk w; trace := trace w |}.
Definition upd_cpu (c : Z) (w : world) : world :=
  {| firq_singleton := firq_singleton w; drvdata := drvdata w; cur_cpu := c;
     iomem := iomem w; fiq_banked := fiq_banked w; fiq_masked := fiq_masked w;
     fiq_claimed := fiq_claimed w; fiq_vector := fiq_vector w;
     fiq_lines := fiq_lines w; fiq_owner_ret := fiq_owner_ret w;
     stack_junk := stack_junk w; trace := trace w |}.
Definition upd_iomem (m : gmap Z Z) (w : world) : world :=
  {| firq_singleton := firq_singleton w; drvdata := drvdata w;
     cur_cpu := cur_cpu w; iomem := m; fiq_banked := fiq_banked w;
     fiq_masked := fiq_masked w; fiq_claimed := fiq_claimed w;
     fiq_vector := fiq_vector w; fiq_lines := fiq_lines w;
     fiq_owner_ret := fiq_owner_ret w; stack_junk := stack_junk w;
     trace := trace w |}.
Definition upd_banked (f : Z → fiq_bank) (w : world) : world :=
  {| firq_singleton := firq_singleton w; drvdata := drvdata w;
     cur_cpu := cur_cpu w; iomem := iomem w; fiq_banked := f;
     fiq_masked := fiq_masked w; fiq_claimed := fiq_claimed w;
     fiq_vector := fiq_vector w; fiq_lines := fiq_lines w;
     fiq_owner_ret := fiq_owner_ret w; stack_junk := stack_junk w;
     trace := trace w |}.
Definition upd_masked (s : gset Z) (w : world) : world :=
  {| firq_singleton := firq_singleton w; drvdata := drvdata w;
     cur_cpu := cur_cpu w; iomem := iomem w; fiq_banked := fiq_banked w;
     fiq_masked := s; fiq_claimed := fiq_claimed w;
     fiq_vector := fiq_vector w; fiq_lines := fiq_lines w;
     fiq_owner_ret := fiq_owner_ret w; stack_junk := stack_junk w;
     trace := trace w |}.
Definition upd_claimed (b : bool) (w : world) : world :=
  {| firq_singleton := firq_singleton w; drvdata := drvdata w;
     cur_cpu := cur_cpu w; iomem := iomem w; fiq_banked := fiq_banked w;
     fiq_masked := fiq_masked w; fiq_claimed := b;
     fiq_vector := fiq_vector w; fiq_lines := fiq_lines w;
     fiq_owner_ret := fiq_owner_ret w; stack_junk := stack_junk w;
     trace := trace w |}.
Definition upd_vector (v : option (Z * Z)) (w : world) : world :=
  {| firq_singleton := firq_singleton w; drvdata := drvdata w;
     cur_cpu := cur_cpu w; iomem := iomem w; fiq_banked := fiq_banked w;
     fiq_masked := fiq_masked w; fiq_claimed := fiq_claimed w;
     fiq_vector := v; fiq_lines := fiq_lines w;
     fiq_owner_ret := fiq_owner_ret w; stack_junk := stack_junk w;
     trace := trace w |}.
Definition upd_lines (s : gset Z) (w : world) : world :=
  {| firq_singleton := firq_singleton w; drvdata := drvdata w;
     cur_cpu := cur_cpu w; iomem := iomem w; fiq_banked := fiq_banked w;
     fiq_masked := fiq_masked w; fiq_claimed := fiq_claimed w;
     fiq_vector := fiq_vector w; fiq_lines := s;
     fiq_owner_ret := fiq_owner_ret w; stack_junk := stack_junk w;
     trace := trace w |}.
Definition upd_trace (t : list event) (w : world) : world :=
  {| firq_singleton := firq_singleton w; drvdata := drvdata w;
     cur_cpu := cur_cpu w; iomem := iomem w; fiq_banked := fiq_banked w;
     fiq_masked := fiq_masked w; fiq_claimed := fiq_claimed w;
     fiq_vector := fiq_vector w; fiq_lines := fiq_lines w;
     fiq_owner_ret := fiq_owner_ret w; stack_junk := stack_junk w;
     trace := t |}.

(** Record one action after those already observed. *)
Definition emit (e : event) (w : world) : world :=
  upd_trace (trace w ++ [e]) w.

(** ** The state monad of driver code *)

Definition M (A : Type) : Type := world → A * world.

Definition bindM {A B} (m : M A) (f : A → M B) : M B :=
  λ w, let '(a, w1) := m w in f a w1.

#[global] Instance M_ret : MRet M := λ A a w, (a, w).
#[global] Instance M_bind : MBind M := λ A B f m, bindM m f.

Notation "'let*' x ':=' m 'in' k" := (bindM m (λ x, k))
  (at level 10, x name, m at level 100, k at level 200, only parsing).

(** State reached and value returned by a computation. *)
Definition exec {A} (m : M A) (w : world) : world := (m w).2.
Definition eval {A} (m : M A) (w : world) : A := (m w).1.

(** ** Kernel services *)

(** [writel(val, addr)]: a 32-bit store to I/O memory, by the running core. *)
Definition writel (val addr : Z) : M unit :=
  λ w, (tt, emit (EvWritel (cur_cpu w) (u32 val) addr)
              (upd_iomem (<[addr := u32 val]> (iomem w)) w)).

(** [dmb()]: data memory barrier. *)
Definition dmb : M unit := λ w, (tt, emit (EvDmb (cur_cpu w)) w).

(** [get_fiq_regs(&regs)] stores r8_fiq..r14_fiq of the running core into
    the ARM_r8..ARM_lr slots of [regs]; the other slots keep their value. *)
Definition get_fiq_regs (regs : pt_regs) : M pt_regs :=
  λ w, let b := fiq_banked w (cur_cpu w) in
       ({| ARM_r0 := ARM_r0 regs; ARM_r1 := ARM_r1 regs;
           ARM_r2 := ARM_r2 regs; ARM_r3 := ARM_r3 regs;
           ARM_r4 := ARM_r4 regs; ARM_r5 := ARM_r5 regs;
           ARM_r6 := ARM_r6 regs; ARM_r7 := ARM_r7 regs;
           ARM_r8 := r8_fiq b; ARM_r9 := r9_fiq b; ARM_r10 := r10_fiq b;
           ARM_fp := fp_fiq b; ARM_ip := ip_fiq b; ARM_sp := sp_fiq b;
           ARM_lr := lr_fiq b; ARM_pc := ARM_pc regs;
           ARM_cpsr := ARM_cpsr regs; ARM_ORIG_r0 := ARM_ORIG_r0 regs |},
        emit (EvGetFiqRegs (cur_cpu w)) w).

(** [set_fiq_regs(&regs)] loads r8_fiq..r14_fiq of the running core from
    the ARM_r8..ARM_lr slots of [regs]. *)
Definition bank_of_regs (regs : pt_regs) : fiq_bank :=
  {| r8_fiq := ARM_r8 regs; r9_fiq := ARM_r9 regs; r10_fiq := ARM_r10 regs;
     fp_fiq := ARM_fp regs; ip_fiq := ARM_ip regs; sp_fiq := ARM_sp regs;
     lr_fiq := ARM_lr regs |}.

Definition set_fiq_regs (regs : pt_regs) : M unit :=
  λ w, let c := cur_cpu w in
       let b := bank_of_regs regs in
       (tt, emit (EvSetFiqRegs c b)
              (upd_banked (λ c', if decide (c' = c) then b
                                 else fiq_banked w c') w)).

(** [work_on_cpu(cpu, fn, arg)]: run [fn(arg)] on [cpu], wait for it, and
    return its result to the caller, which continues on its own core. *)
Definition work_on_cpu (cpu : Z) (fn : firq_priv → M Z) (arg : firq_priv)
  : M Z :=
  λ w, let caller := cur_cpu w in
       let '(r, w1) := fn arg (upd_cpu cpu (emit (EvWorkBegin cpu) w)) in
       (r, upd_cpu caller (emit (EvWorkEnd cpu r) w1)).

(** [for_each_possible_cpu(cpu) body] *)
Fixpoint for_each_cpu (cpus : list Z) (body : Z → M unit) : M unit :=
  match cpus with
  | [] => mret tt
  | cpu :: rest => body cpu;; for_each_cpu rest body
  end.

(** [struct fiq_handler]: only the name is initialised by the driver. *)
Record fiq_handler := { fh_name : string }.

(** [claim_fiq(f)]: returns 0 and hands the vector to [f] when the present
    holder gives it up, and the holder's refusal code otherwise. *)
Definition claim_fiq (f : fiq_handler) : M Z :=
  λ w, let r := fiq_owner_ret w in
       let w1 := emit (EvClaimFiq (fh_name f) r) w in
       (r, if decide (r = 0) then upd_claimed true w1 else w1).

(** [release_fiq(f)] *)
Definition release_fiq (f : fiq_handler) : M unit :=
  λ w, (tt, emit (EvReleaseFiq (fh_name f)) (upd_claimed false w)).

(** [set_fiq_handler(start, length)] *)
Definition set_fiq_handler (start len : Z) : M unit :=
  λ w, (tt, emit (EvSetFiqHandler start len)
              (upd_vector (Some (start, len)) w)).

(** [enable_fiq(fiq)] / [disable_fiq(fiq)] *)
Definition enable_fiq (line : Z) : M unit :=
  λ w, (tt, emit (EvEnableFiq line) (upd_lines ({[line]} ∪ fiq_lines w) w)).
Definition disable_fiq (line : Z) : M unit :=
  λ w, (tt, emit (EvDisableFiq line) (upd_lines (fiq_lines w ∖ {[line]}) w)).

(** [local_fiq_disable()] / [local_fiq_enable()]: the FIQ mask bit of the
    running core. *)
Definition local_fiq_disable : M unit :=
  λ w, (tt, emit (EvLocalFiqDisable (cur_cpu w))
              (upd_masked ({[cur_cpu w]} ∪ fiq_masked w) w)).
Definition local_fiq_enable : M unit :=
  λ w, (tt, emit (EvLocalFiqEnable (cur_cpu w))
              (upd_masked (fiq_masked w ∖ {[cur_cpu w]}) w)).

(** [devm_kzalloc]: [Some] zeroed object, or [None] for NULL. *)
Definition devm_kzalloc (pdev : platform_device) : M (option firq_priv) :=
  λ w, (if pd_alloc_ok pdev then Some priv_zero else None,
        emit (EvAlloc (pd_alloc_ok pdev)) w).

Definition platform_get_irq (pdev : platform_device) (num : Z) : M Z :=
  λ w, (pd_irq pdev, emit (EvGetIrq (pd_irq pdev)) w).

Definition devm_ioremap (pdev : platform_device) (phys size : Z) : M Z :=
  λ w, (pd_ioremap pdev phys size,
        emit (EvIoremap phys size (pd_ioremap pdev phys size)) w).

(** [dev_err] / [dev_info]: the message without its arguments. *)
Definition dev_err (msg : string) : M unit :=
  λ w, (tt, emit (EvLog true msg) w).
Definition dev_info (msg : string) : M unit :=
  λ w, (tt, emit (EvLog false msg) w).

Definition print_hex_dump (buf len : Z) : M unit :=
  λ w, (tt, emit (EvHexDump buf len) w).

Definition platform_set_drvdata (p : firq_priv) : M unit :=
  λ w, (tt, emit (EvSetDrvdata p) (upd_drvdata (Some p) w)).

(** Reads and writes of the driver's global. *)
Definition read_singleton : M bool := λ w, (firq_singleton w, w).
Definition write_singleton (b : bool) : M unit :=
  λ w, (tt, emit (EvSingleton b) (upd_singleton b w)).

(** The uninitialised [struct pt_regs fiq_regs] local. *)
Definition uninit_pt_regs : M pt_regs := λ w, (stack_junk w, w).

(** ** The driver *)

Section Driver.

Variable sys : system.

(** Setup FIQ-mode registers on particular CPU. *)
Definition firq_setup_fiq_regs_cpu (data : firq_priv) : M Z :=
  let priv := data in
  let* fiq_regs := uninit_pt_regs in
  fiq_regs ← get_fiq_regs fiq_regs;
  let fiq_regs := set_ARM_sp (u32 (ocram_regs priv)) fiq_regs in
  set_fiq_regs fiq_regs;;
  mret 0.

Definition ocram_setupdata (priv : firq_priv) : list Z :=
  [ u32 (gic_cpu_regs priv); u32 (irq priv); u32 (epit2_regs priv) ].

(** [for (i = 0; i < 0x100; i += 4) writel(0, priv->ocram_regs + i);]
    entered with the current [i]; [fuel] bounds the number of iterations. *)
Fixpoint erase_loop (fuel : nat) (i : Z) (priv : firq_priv) : M unit :=
  match fuel with
  | O => mret tt
  | S fuel' =>
      if decide (i < 0x100) then
        writel 0 (ocram_regs priv + i);;
        erase_loop fuel' (i + 4) priv
      else mret tt
  end.

(** [for (i = 0; i < ARRAY_SIZE(data); i++)
       writel(data[i], priv->ocram_regs + (4 * i));] *)
Fixpoint preload_loop (fuel : nat) (i : Z) (data : list Z) (priv : firq_priv)
  : M unit :=
  match fuel with
  | O => mret tt
  | S fuel' =>
      if decide (i < Z.of_nat (length data)) then
        writel (data !!! Z.to_nat i) (ocram_regs priv + 4 * i);;
        preload_loop fuel' (i + 1) data priv
      else mret tt
  end.

Definition firq_setup_fiq_regs (priv : firq_priv) : M unit :=
  let data := ocram_setupdata priv in
  (* Erase the OCRAM area. *)
  erase_loop (Z.to_nat 0x100) 0 priv;;
  (* Preload the OCRAM area with data used in the FIQ handler. *)
  preload_loop (length data) 0 data priv;;
  dmb;;
  (* Run firq_setup_fiq_regs_cpu() on all CPUs in system. *)
  for_each_cpu (cpu_possible sys)
    (λ cpu, work_on_cpu cpu firq_setup_fiq_regs_cpu priv;; mret tt).

Definition fh : fiq_handler := {| fh_name := "fiqdemo" |}.

(** The control word of the timer:
    [(1 << 0) | (1 << 1) | (1 << 2) | (1 << 3) | (1 << 19) | (0x2 << 24)],
    commented EN, ENMOD, OCIEN, RLD, WAITEN, CLKSRC=0x2 in the source. *)
Definition epit_control_word : Z :=
  Z.lor (Z.lor (Z.lor (Z.lor (Z.lor
    (1 ≪ 0) (1 ≪ 1)) (1 ≪ 2)) (1 ≪ 3)) (1 ≪ 19)) (0x2 ≪ 24).

(** Start EPIT to generate FIQs: the six stores that end [firq_probe]
    (offsets 0x0 CR, 0x4 SR, 0x8 LR). *)
Definition epit_start (priv : firq_priv) : M unit :=
  writel 0x0 (epit2_regs priv + 0x0);;
  writel 0xffff (epit2_regs priv + 0x8);;
  writel 0x1 (epit2_regs priv + 0x4);;
  writel epit_control_word (epit2_regs priv + 0x0);;
  writel 0xffff (epit2_regs priv + 0x8);;
  writel 0x1 (epit2_regs priv + 0x4).

Definition firq_probe (pdev : platform_device) : M Z :=
  let fiq_handler_size :=
    u32 (firq_fiq_handler_end sys - firq_fiq_handler sys) in
  let* busy := read_singleton in
  if busy then mret (- EBUSY) else
  let* priv := devm_kzalloc pdev in
  match priv with
  | None => mret (- ENOMEM)
  | Some priv =>
    let* line := platform_get_irq pdev 0 in
    let priv := set_irq line priv in
    if decide (irq priv < 0) then
      dev_err "no IRQ defined";;
      mret (- EINVAL)
    else
    let* gic := devm_ioremap pdev 0x00a00100 0x100 in
    let priv := set_gic_cpu_regs gic priv in
    let* ocram := devm_ioremap pdev 0x00940000 0x1000 in
    let priv := set_ocram_regs ocram priv in
    let* epit := devm_ioremap pdev 0x020d4000 0x4000 in
    let priv := set_epit2_regs epit priv in
    if (gic_cpu_regs priv =? 0) || (ocram_regs priv =? 0)
       || (epit2_regs priv =? 0) then
      dev_err "ioremap failed";;
      mret (- EINVAL)
    else
    dev_err "gic, ocram, epit, irq";;
    (* Register the FIQ handler *)
    let* r := claim_fiq fh in
    if decide (r ≠ 0) then
      dev_err "couldn't claim FIQ.";;
      mret (- ENODEV)
    else
    (* Setup the FIQ handler. *)
    dev_info "FIQ handler: start, size";;
    print_hex_dump (firq_fiq_handler sys) fiq_handler_size;;
    dev_info "registering FIQ handler";;
    set_fiq_handler (firq_fiq_handler sys) fiq_handler_size;;
    firq_setup_fiq_regs priv;;
    dev_info "FIQ handler registered";;
    platform_set_drvdata priv;;
    dev_info "Enabling FIQ";;
    enable_fiq (irq priv);;
    dev_info "FIQ enabled";;
    write_singleton true;;
    epit_start priv;;
    mret 0
  end.

Definition firq_remove_cpu0 (data : firq_priv) : M Z :=
  let priv := data in
  (* Stop EPIT *)
  local_fiq_disable;;
  writel 0x0 (epit2_regs priv + 0x0);;
  disable_fiq (irq priv);;
  local_fiq_enable;;
  release_fiq fh;;
  write_singleton false;;
  mret 0.

(** [firq_remove] reads the driver data back and runs the teardown on
    CPU 0.  With no driver data the teardown would dereference NULL: [None]. *)
Definition firq_remove (pdev : platform_device) (w : world)
  : option (Z * world) :=
  match drvdata w with
  | None => None
  | Some priv =>
      Some ((dev_info "Removing module";;
             work_on_cpu 0 firq_remove_cpu0 priv) w)
  end.

End Driver.

(** ** A concrete machine *)

Definition bank_boot : fiq_bank :=
  {| r8_fiq := 8; r9_fiq := 9; r10_fiq := 10; fp_fiq := 11; ip_fiq := 12;
     sp_fiq := 13; lr_fiq := 14 |}.

Definition regs_junk : pt_regs :=
  {| ARM_r0 := 100; ARM_r1 := 101; ARM_r2 := 102; ARM_r3 := 103;
     ARM_r4 := 104; ARM_r5 := 105; ARM_r6 := 106; ARM_r7 := 107;
     ARM_r8 := 108; ARM_r9 := 109; ARM_r10 := 110; ARM_fp := 111;
     ARM_ip := 112; ARM_sp := 113; ARM_lr := 114; ARM_pc := 115;
     ARM_cpsr := 116; ARM_ORIG_r0 := 117 |}.

(** Nothing claimed, nothing mapped, executing on [cpu]. *)
Definition idle_world (cpu : Z) : world :=
  {| firq_singleton := false; drvdata := None; cur_cpu := cpu;
     iomem := ∅; fiq_banked := λ _, bank_boot; fiq_masked := ∅;
     fiq_claimed := false; fiq_vector := None; fiq_lines := ∅;
     fiq_owner_ret := 0; stack_junk := regs_junk; trace := [] |}.

(** A quad-core board whose handler blob is 0x40 bytes long. *)
Definition quad : system :=
  {| firq_fiq_handler := 0x80100000; firq_fiq_handler_end := 0x80100040;
     cpu_possible := [0; 1; 2; 3] |}.

(** The same board linked with an empty handler blob. *)
Definition quad_empty : system :=
  {| firq_fiq_handler := 0x80100000; firq_fiq_handler_end := 0x80100000;
     cpu_possible := [0; 1; 2; 3] |}.

(** A device whose resources all resolve; windows are mapped at a fixed
    offset from their physical address. *)
Definition pdev_ok : platform_device :=
  {| pd_alloc_ok := true; pd_irq := 88;
     pd_ioremap := λ phys _, 0xf0000000 + phys |}.

Definition priv_ok : firq_priv :=
  {| gic_cpu_regs := 0xf0a00100; ocram_regs := 0xf0940000;
     epit2_regs := 0xf20d4000; irq := 88 |}.

(** The machine after a successful probe on CPU [cpu]. *)
Definition running_world (cpu : Z) : world :=
  exec (firq_probe quad pdev_ok) (idle_world cpu).

(** Devices whose resources do not resolve: no memory, no interrupt line
    (a negative errno from the bus), and a scratch window that fails to
    map. *)
Definition pdev_nomem : platform_device :=
  {| pd_alloc_ok := false; pd_irq := 88;
     pd_ioremap := λ phys _, 0xf0000000 + phys |}.

Definition pdev_noirq : platform_device :=
  {| pd_alloc_ok := true; pd_irq := -6;
     pd_ioremap := λ phys _, 0xf0000000 + phys |}.

Definition pdev_nomap : platform_device :=
  {| pd_alloc_ok := true; pd_irq := 88;
     pd_ioremap := λ phys _,
       if phys =? 0x00940000 then 0 else 0xf0000000 + phys |}.

(** An idle machine whose FIQ vector is held by a client that refuses to
    give it up. *)
Definition refused_world (cpu : Z) : world :=
  {| firq_singleton := false; drvdata := None; cur_cpu := cpu;
     iomem := ∅; fiq_banked := λ _, bank_boot; fiq_masked := ∅;
     fiq_claimed := false; fiq_vector := None; fiq_lines := ∅;
     fiq_owner_ret := -16; stack_junk := regs_junk; trace := [] |}.


(** ** Vocabulary of the properties *)

(** The part of the state that neither a store to I/O memory nor a register
    bootstrap touches. *)
Definition ctl (w : world) :=
  (firq_singleton w, drvdata w, cur_cpu w, fiq_masked w, fiq_claimed w,
   fiq_vector w, fiq_lines w, fiq_owner_ret w, stack_junk w).

(** Lifecycle states the driver can be observed in between two calls. *)
Definition Idle (w : world) : Prop :=
  firq_singleton w = false ∧ fiq_claimed w = false.
Definition Running (w : world) : Prop :=
  firq_singleton w = true ∧ fiq_claimed w = true.

(** A resource set that resolves: the allocation succeeds, the line is not
    negative, and none of the three windows maps to NULL. *)
Definition valid_resources (pdev : platform_device) : Prop :=
  pd_alloc_ok pdev = true ∧ 0 ≤ pd_irq pdev
  ∧ pd_ioremap pdev 0x00a00100 0x100 ≠ 0
  ∧ pd_ioremap pdev 0x00940000 0x1000 ≠ 0
  ∧ pd_ioremap pdev 0x020d4000 0x4000 ≠ 0.

(** The private data [firq_probe] builds from a device. *)
Definition priv_of (pdev : platform_device) : firq_priv :=
  {| gic_cpu_regs := pd_ioremap pdev 0x00a00100 0x100;
     ocram_regs := pd_ioremap pdev 0x00940000 0x1000;
     epit2_regs := pd_ioremap pdev 0x020d4000 0x4000;
     irq := pd_irq pdev |}.

(** Layout of the shared region, by word index (byte offset / 4). *)
Definition shared_region_word (priv : firq_priv) (k : Z) : Z :=
  if decide (k = 0) then u32 (gic_cpu_regs priv)
  else if decide (k = 1) then u32 (irq priv)
  else if decide (k = 2) then u32 (epit2_regs priv)
  else 0.

(** The stores of the erase loop, of the preload loop, and the actions of
    one register bootstrap dispatched to [cpu] from state [w]. *)
Definition erase_events (cpu : Z) (priv : firq_priv) : list event :=
  (λ k, EvWritel cpu 0 (ocram_regs priv + 4 * k)) <$> seqZ 0 64.

Definition preload_events (cpu : Z) (priv : firq_priv) : list event :=
  [ EvWritel cpu (u32 (gic_cpu_regs priv)) (ocram_regs priv + 0);
    EvWritel cpu (u32 (irq priv)) (ocram_regs priv + 4);
    EvWritel cpu (u32 (epit2_regs priv)) (ocram_regs priv + 8) ].

Definition bootstrap_events (w : world) (priv : firq_priv) (cpu : Z)
  : list event :=
  [ EvWorkBegin cpu; EvGetFiqRegs cpu;
    EvSetFiqRegs cpu (with_sp_fiq (u32 (ocram_regs priv)) (fiq_banked w cpu));
    EvWorkEnd cpu 0 ].

(** The timer stores as the code issues them, and as section 4.5 of the
    specification lists them. *)
Definition epit_start_events (cpu : Z) (priv : firq_priv) : list event :=
  [ EvWritel cpu 0 (epit2_regs priv + 0x0);
    EvWritel cpu 0xffff (epit2_regs priv + 0x8);
    EvWritel cpu 1 (epit2_regs priv + 0x4);
    EvWritel cpu 0x0208000f (epit2_regs priv + 0x0);
    EvWritel cpu 0xffff (epit2_regs priv + 0x8);
    EvWritel cpu 1 (epit2_regs priv + 0x4) ].

Definition epit_documented_events (cpu : Z) (priv : firq_priv) : list event :=
  [ EvWritel cpu 0 (epit2_regs priv + 0x0);
    EvWritel cpu 0xffff (epit2_regs priv + 0x8);
    EvWritel cpu 1 (epit2_regs priv + 0x4);
    EvWritel cpu 0x0208000f (epit2_regs priv + 0x0);
    EvWritel cpu 1 (epit2_regs priv + 0x4) ].

(** The teardown as [firq_remove] performs it. *)
Definition teardown_events (priv : firq_priv) : list event :=
  [ EvLog false "Removing module";
    EvWorkBegin 0;
    EvLocalFiqDisable 0;
    EvWritel 0 0 (epit2_regs priv + 0x0);
    EvDisableFiq (irq priv);
    EvLocalFiqEnable 0;
    EvReleaseFiq "fiqdemo";
    EvSingleton false;
    EvWorkEnd 0 0 ].

(** The actions of a [firq_probe] that succeeds when entered in state [w]. *)
Definition probe_events (sys : system) (pdev : platform_device) (w : world)
  : list event :=
  let p := priv_of pdev in
  let size := u32 (firq_fiq_handler_end sys - firq_fiq_handler sys) in
  let c := cur_cpu w in
  [ EvAlloc true; EvGetIrq (irq p);
    EvIoremap 0x00a00100 0x100 (gic_cpu_regs p);
    EvIoremap 0x00940000 0x1000 (ocram_regs p);
    EvIoremap 0x020d4000 0x4000 (epit2_regs p);
    EvLog true "gic, ocram, epit, irq";
    EvClaimFiq "fiqdemo" 0;
    EvLog false "FIQ handler: start, size";
    EvHexDump (firq_fiq_handler sys) size;
    EvLog false "registering FIQ handler";
    EvSetFiqHandler (firq_fiq_handler sys) size ]
  ++ erase_events c p ++ preload_events c p ++ [EvDmb c]
  ++ (cpu_possible sys ≫= bootstrap_events w p)
  ++ [ EvLog false "FIQ handler registered"; EvSetDrvdata p;
       EvLog false "Enabling FIQ"; EvEnableFiq (irq p);
       EvLog false "FIQ enabled"; EvSingleton true ]
  ++ epit_start_events c p.

(** ** Reading a computation *)

(** Symbolic execution of straight-line code: unfold the monad and the
    services, then compute. *)
Create HintDb kernel discriminated.

#[global] Hint Unfold bindM work_on_cpu writel dmb get_fiq_regs
  set_fiq_regs claim_fiq release_fiq set_fiq_handler enable_fiq disable_fiq
  local_fiq_disable local_fiq_enable devm_kzalloc platform_get_irq
  devm_ioremap dev_err dev_info print_hex_dump platform_set_drvdata
  read_singleton write_singleton uninit_pt_regs
  firq_setup_fiq_regs_cpu epit_start firq_remove_cpu0 : kernel.

Ltac step :=
  repeat (unfold mbind, M_bind, mret, M_ret; autounfold with kernel; cbn).
Ltac run := unfold exec, eval; step.

Lemma u32_idem (z : Z) : u32 (u32 z) = u32 z.
Proof. unfold u32. by rewrite Z.mod_mod. Qed.

Lemma ctl_inv (w1 w : world) :
  ctl w1 = ctl w →
  firq_singleton w1 = firq_singleton w ∧ drvdata w1 = drvdata w
  ∧ cur_cpu w1 = cur_cpu w ∧ fiq_masked w1 = fiq_masked w
  ∧ fiq_claimed w1 = fiq_claimed w ∧ fiq_vector w1 = fiq_vector w
  ∧ fiq_lines w1 = fiq_lines w ∧ fiq_owner_ret w1 = fiq_owner_ret w
  ∧ stack_junk w1 = stack_junk w.
Proof. unfold ctl. intros [= -> -> -> -> -> -> -> -> ->]. done. Qed.

Lemma run_pair {A} (m : M A) (w : world) : m w = (eval m w, exec m w).
Proof. unfold eval, exec. by destruct (m w). Qed.

Lemma exec_bind {A B} (m : M A) (f : A → M B) (w : world) :
  exec (bindM m f) w = exec (f (eval m w)) (exec m w).
Proof. unfold exec, eval, bindM. by destruct (m w). Qed.

Lemma eval_bind {A B} (m : M A) (f : A → M B) (w : world) :
  eval (bindM m f) w = eval (f (eval m w)) (exec m w).
Proof. unfold exec, eval, bindM. by destruct (m w). Qed.

Lemma exec_seq {A B} (m : M A) (k : M B) (w : world) :
  exec (m;; k) w = exec k (exec m w).
Proof. apply exec_bind. Qed.

Lemma eval_seq {A B} (m : M A) (k : M B) (w : world) :
  eval (m;; k) w = eval k (exec m w).
Proof. apply eval_bind. Qed.

(** ** The erase and preload loops *)

Section Loops.

Variable priv : firq_priv.

Lemma erase_loop_step (fuel : nat) (i : Z) (w : world) :
  i < 0x100 →
  exec (erase_loop (S fuel) i priv) w
  = exec (erase_loop fuel (i + 4) priv) (exec (writel 0 (ocram_regs priv + i)) w).
Proof.
  intros Hi. cbn [erase_loop]. destruct (decide (i < 0x100)); [|lia].
  apply exec_seq.
Qed.

Lemma erase_loop_exit (fuel : nat) (i : Z) (w : world) :
  ¬ i < 0x100 → exec (erase_loop fuel i priv) w = w.
Proof.
  intros Hi. destruct fuel; cbn [erase_loop]; [done|].
  by destruct (decide (i < 0x100)).
Qed.

(** Words of the block at or after the loop counter are zero afterwards, as
    far as the fuel reaches; all others keep their value. *)
Lemma erase_loop_iomem (fuel : nat) (j k : Z) (w : world) :
  iomem (exec (erase_loop fuel (4 * j) priv) w) !! (ocram_regs priv + 4 * k)
  = if decide (j ≤ k < 64 ∧ k < j + Z.of_nat fuel) then Some 0
    else iomem w !! (ocram_regs priv + 4 * k).
Proof.
  revert j w. induction fuel as [|fuel IH]; intros j w.
  - cbn [erase_loop]. destruct (decide (_ ∧ _)); [exfalso; lia|done].
  - destruct (decide (4 * j < 0x100)) as [Hj|Hj].
    + rewrite erase_loop_step by done.
      replace (4 * j + 4) with (4 * (j + 1)) by lia. rewrite IH.
      cbn [exec writel snd emit upd_trace upd_iomem iomem].
      destruct (decide (k = j)) as [->|Hne].
      * rewrite lookup_insert_eq.
        do 2 destruct (decide (_ ∧ _)); try (exfalso; lia); done.
      * rewrite lookup_insert_ne by lia.
        do 2 destruct (decide (_ ∧ _)); try (exfalso; lia); done.
    + rewrite erase_loop_exit by done.
      destruct (decide (_ ∧ _)); [exfalso; lia|done].
Qed.

Lemma erase_loop_iomem_other (fuel : nat) (j a : Z) (w : world) :
  (∀ k, 0 ≤ k < 64 → a ≠ ocram_regs priv + 4 * k) → 0 ≤ j →
  iomem (exec (erase_loop fuel (4 * j) priv) w) !! a = iomem w !! a.
Proof.
  intros Ha. revert j w. induction fuel as [|fuel IH]; intros j w Hj; [done|].
  destruct (decide (4 * j < 0x100)) as [Hlt|Hge].
  - rewrite erase_loop_step by done.
    replace (4 * j + 4) with (4 * (j + 1)) by lia. rewrite IH by lia.
    cbn [exec writel snd emit upd_trace upd_iomem iomem].
    apply lookup_insert_ne. intros Heq. by apply (Ha j); [lia|].
  - by rewrite erase_loop_exit.
Qed.

Lemma erase_loop_trace (n extra : nat) (j : Z) (w : world) :
  j + Z.of_nat n = 64 →
  trace (exec (erase_loop (n + extra) (4 * j) priv) w)
  = trace w ++ ((λ k, EvWritel (cur_cpu w) 0 (ocram_regs priv + 4 * k))
                <$> seqZ j (Z.of_nat n)).
Proof.
  revert j w. induction n as [|n IH]; intros j w Hj.
  - rewrite erase_loop_exit by lia. cbn. by rewrite app_nil_r.
  - cbn [Nat.add]. rewrite erase_loop_step by lia.
    replace (4 * j + 4) with (4 * (j + 1)) by lia. rewrite IH by lia.
    rewrite Nat2Z.inj_succ, (seqZ_cons j) by lia.
    replace (Z.pred (Z.succ (Z.of_nat n))) with (Z.of_nat n) by lia.
    cbn [exec writel snd emit upd_trace upd_iomem trace cur_cpu fmap list_fmap].
    rewrite <- app_assoc. f_equal.
Qed.

Lemma preload_loop_exec (w : world) :
  let data := ocram_setupdata priv in
  exec (preload_loop (length data) 0 data priv) w
  = exec (writel (u32 (epit2_regs priv)) (ocram_regs priv + 8))
      (exec (writel (u32 (irq priv)) (ocram_regs priv + 4))
         (exec (writel (u32 (gic_cpu_regs priv)) (ocram_regs priv + 0)) w)).
Proof.
  cbn. reflexivity.
Qed.

Lemma erase_loop_ctl (fuel : nat) (i : Z) (w : world) :
  ctl (exec (erase_loop fuel i priv) w) = ctl w
  ∧ fiq_banked (exec (erase_loop fuel i priv) w) = fiq_banked w.
Proof.
  revert i w. induction fuel as [|fuel IH]; intros i w; [done|].
  destruct (decide (i < 0x100)).
  - rewrite erase_loop_step by done. by rewrite !(proj1 (IH _ _)), !(proj2 (IH _ _)).
  - by rewrite erase_loop_exit.
Qed.

End Loops.

(** ** The register bootstrap and its dispatch *)

Section Dispatch.

Variable priv : firq_priv.

Let dispatch (cpu : Z) : M unit :=
  work_on_cpu cpu firq_setup_fiq_regs_cpu priv;; mret tt.

Lemma dispatch_ctl (cpu : Z) (w : world) :
  ctl (exec (dispatch cpu) w) = ctl w ∧ iomem (exec (dispatch cpu) w) = iomem w.
Proof. done. Qed.

Lemma dispatch_banked (cpu c : Z) (w : world) :
  fiq_banked (exec (dispatch cpu) w) c
  = if decide (c = cpu) then with_sp_fiq (u32 (ocram_regs priv)) (fiq_banked w cpu)
    else fiq_banked w c.
Proof. done. Qed.

Lemma dispatch_trace (cpu : Z) (w : world) :
  trace (exec (dispatch cpu) w) = trace w ++ bootstrap_events w priv cpu.
Proof.
  unfold dispatch. run. by rewrite <- !app_assoc.
Qed.

Lemma with_sp_fiq_idem (v : Z) (b : fiq_bank) :
  with_sp_fiq v (with_sp_fiq v b) = with_sp_fiq v b.
Proof. done. Qed.

Lemma for_each_cpu_ctl (cpus : list Z) (w : world) :
  ctl (exec (for_each_cpu cpus dispatch) w) = ctl w
  ∧ iomem (exec (for_each_cpu cpus dispatch) w) = iomem w.
Proof.
  revert w. induction cpus as [|cpu cpus IH]; intros w; [done|].
  cbn [for_each_cpu]. rewrite exec_seq.
  destruct (IH (exec (dispatch cpu) w)) as [-> ->]. apply dispatch_ctl.
Qed.

Lemma for_each_cpu_banked (cpus : list Z) (c : Z) (w : world) :
  fiq_banked (exec (for_each_cpu cpus dispatch) w) c
  = if decide (c ∈ cpus) then with_sp_fiq (u32 (ocram_regs priv)) (fiq_banked w c)
    else fiq_banked w c.
Proof.
  revert w. induction cpus as [|cpu cpus IH]; intros w.
  - cbn. case_decide; [|done]. by apply not_elem_of_nil in H.
  - cbn [for_each_cpu]. rewrite exec_seq, IH, dispatch_banked.
    pose proof (elem_of_cons cpus c cpu) as Hiff.
    destruct (decide (c ∈ cpus)), (decide (c = cpu)), (decide (c ∈ cpu :: cpus));
      subst; rewrite ?with_sp_fiq_idem; try done; exfalso; tauto.
Qed.

Lemma for_each_cpu_trace_from (w0 : world) (cpus : list Z) (w : world) :
  (∀ c, with_sp_fiq (u32 (ocram_regs priv)) (fiq_banked w c)
        = with_sp_fiq (u32 (ocram_regs priv)) (fiq_banked w0 c)) →
  trace (exec (for_each_cpu cpus dispatch) w)
  = trace w ++ (cpus ≫= bootstrap_events w0 priv).
Proof.
  revert w. induction cpus as [|cpu cpus IH]; intros w Hw.
  - cbn. by rewrite app_nil_r.
  - cbn [for_each_cpu]. rewrite exec_seq, IH.
    + rewrite dispatch_trace. rewrite <- app_assoc. f_equal.
      cbn [mbind list_bind]. f_equal. unfold bootstrap_events. by rewrite Hw.
    + intros c. rewrite dispatch_banked. case_decide; subst.
      * by rewrite with_sp_fiq_idem.
      * apply Hw.
Qed.

End Dispatch.

(** ** [firq_setup_fiq_regs] as a whole *)

Section Setup.

Variables (sys : system) (priv : firq_priv).

Lemma firq_setup_fiq_regs_exec (w : world) :
  exec (firq_setup_fiq_regs sys priv) w
  = exec (for_each_cpu (cpu_possible sys)
            (λ cpu, work_on_cpu cpu firq_setup_fiq_regs_cpu priv;; mret tt))
      (exec dmb
         (exec (preload_loop (length (ocram_setupdata priv)) 0
                  (ocram_setupdata priv) priv)
            (exec (erase_loop (Z.to_nat 0x100) 0 priv) w))).
Proof. unfold firq_setup_fiq_regs. by rewrite !exec_seq. Qed.

(** The erase loop leaves through its guard: fuel beyond the 64 iterations
    is never used. *)
Lemma erase_loop_fuel (n extra : nat) (j : Z) (w : world) :
  j + Z.of_nat n = 64 →
  exec (erase_loop (n + extra) (4 * j) priv) w
  = exec (erase_loop n (4 * j) priv) w.
Proof.
  revert j w. induction n as [|n IH]; intros j w Hj.
  - by rewrite !erase_loop_exit by lia.
  - cbn [Nat.add]. rewrite !erase_loop_step by lia.
    replace (4 * j + 4) with (4 * (j + 1)) by lia. apply IH. lia.
Qed.

Lemma firq_setup_fiq_regs_ctl (w : world) :
  ctl (exec (firq_setup_fiq_regs sys priv) w) = ctl w.
Proof.
  rewrite firq_setup_fiq_regs_exec.
  rewrite (proj1 (for_each_cpu_ctl _ _ _)).
  rewrite preload_loop_exec.
  destruct (erase_loop_ctl priv (Z.to_nat 0x100) 0 w) as [He _].
  revert He. generalize (exec (erase_loop (Z.to_nat 0x100) 0 priv) w).
  by intros w1 <-.
Qed.

Lemma firq_setup_fiq_regs_iomem (w : world) :
  iomem (exec (firq_setup_fiq_regs sys priv) w)
  = <[ocram_regs priv + 8 := u32 (epit2_regs priv)]>
      (<[ocram_regs priv + 4 := u32 (irq priv)]>
         (<[ocram_regs priv + 0 := u32 (gic_cpu_regs priv)]>
            (iomem (exec (erase_loop (Z.to_nat 256) 0 priv) w)))).
Proof.
  rewrite firq_setup_fiq_regs_exec.
  rewrite (proj2 (for_each_cpu_ctl _ _ _)).
  rewrite preload_loop_exec.
  generalize (exec (erase_loop (Z.to_nat 0x100) 0 priv) w). intros w1.
  cbn. by rewrite !u32_idem.
Qed.

(** Stores go to the 64 words of the region and nowhere else. *)
Lemma firq_setup_fiq_regs_iomem_frame (w : world) (a : Z) :
  (∀ k, 0 ≤ k < 64 → a ≠ ocram_regs priv + 4 * k) →
  iomem (exec (firq_setup_fiq_regs sys priv) w) !! a = iomem w !! a.
Proof.
  intros Ha. rewrite firq_setup_fiq_regs_iomem.
  pose proof (Ha 0) as H0. pose proof (Ha 1) as H1. pose proof (Ha 2) as H2.
  rewrite !lookup_insert_ne by lia.
  change (erase_loop (Z.to_nat 256) 0) with (erase_loop (Z.to_nat 256) (4 * 0)).
  by apply erase_loop_iomem_other.
Qed.

(** Afterwards the FIQ stack pointer of every possible core holds the
    address of the region. *)
Lemma firq_setup_fiq_regs_banked (w : world) (c : Z) :
  fiq_banked (exec (firq_setup_fiq_regs sys priv) w) c
  = if decide (c ∈ cpu_possible sys)
    then with_sp_fiq (u32 (ocram_regs priv)) (fiq_banked w c)
    else fiq_banked w c.
Proof.
  rewrite firq_setup_fiq_regs_exec, for_each_cpu_banked, preload_loop_exec.
  destruct (erase_loop_ctl priv (Z.to_nat 0x100) 0 w) as [_ Hb].
  revert Hb. generalize (exec (erase_loop (Z.to_nat 0x100) 0 priv) w).
  intros w1 Hb. cbn. by rewrite Hb.
Qed.

End Setup.

#[global] Arguments firq_setup_fiq_regs : simpl never.

(** ** Properties of the driver *)

(** C8: on the core it runs on, [firq_setup_fiq_regs_cpu] returns 0 and
    writes the FIQ register bank back with the stack pointer replaced by the
    shared-region address and r8, r9, r10, fp, ip and lr as they were read;
    the banks of the other cores, I/O memory and the rest of the state are
    untouched, whatever the uninitialised local held. *)
Theorem firq_setup_fiq_regs_cpu_frame (priv : firq_priv) (w : world) :
  let b := fiq_banked w (cur_cpu w) in
  let w' := exec (firq_setup_fiq_regs_cpu priv) w in
  eval (firq_setup_fiq_regs_cpu priv) w = 0
  ∧ fiq_banked w' (cur_cpu w)
    = {| r8_fiq := r8_fiq b; r9_fiq := r9_fiq b; r10_fiq := r10_fiq b;
         fp_fiq := fp_fiq b; ip_fiq := ip_fiq b;
         sp_fiq := u32 (ocram_regs priv); lr_fiq := lr_fiq b |}
  ∧ (∀ c, fiq_banked w' c
          = if decide (c = cur_cpu w)
            then with_sp_fiq (u32 (ocram_regs priv)) b
            else fiq_banked w c)
  ∧ trace w'
    = trace w ++ [ EvGetFiqRegs (cur_cpu w);
                   EvSetFiqRegs (cur_cpu w)
                     (with_sp_fiq (u32 (ocram_regs priv)) b) ]
  ∧ ctl w' = ctl w ∧ iomem w' = iomem w.
Proof.
  intros b w'. subst b w'. run. repeat split.
  - by destruct (decide (cur_cpu w = cur_cpu w)).
  - by rewrite <- app_assoc.
Qed.

(** C2: after [firq_setup_fiq_regs], every word of the 256-byte shared
    region reads back as laid out: the GIC CPU-interface base at offset 0,
    the interrupt line at offset 4, the timer base at offset 8, zero in the
    other 61 words; no condition is put on the address values. *)
Theorem shared_region_readback (sys : system) (priv : firq_priv) (w : world)
    (k : Z) :
  0 ≤ k < 64 →
  iomem (exec (firq_setup_fiq_regs sys priv) w) !! (ocram_regs priv + 4 * k)
  = Some (shared_region_word priv k).
Proof.
  intros Hk. rewrite firq_setup_fiq_regs_iomem. unfold shared_region_word.
  destruct (decide (k = 2)) as [->|H2].
  { by rewrite lookup_insert_eq. }
  rewrite lookup_insert_ne by lia.
  destruct (decide (k = 1)) as [->|H1].
  { by rewrite lookup_insert_eq. }
  rewrite lookup_insert_ne by lia.
  destruct (decide (k = 0)) as [->|H0].
  { by rewrite lookup_insert_eq. }
  rewrite lookup_insert_ne by lia.
  change 0 with (4 * 0) at 1. rewrite erase_loop_iomem.
  destruct (decide (_ ∧ _)); [done|]. exfalso; lia.
Qed.

Lemma shared_region_readback_witness :
  0 ≤ 2 < 64
  ∧ iomem (exec (firq_setup_fiq_regs quad priv_zero) (idle_world 0))
      !! (ocram_regs priv_zero + 4 * 2) = Some 0.
Proof.
  split; [lia|].
  apply (shared_region_readback quad priv_zero (idle_world 0) 2). lia.
Defined.

(** C9: [firq_setup_fiq_regs] first performs the 64 erasing stores, then the
    three layout stores, then the barrier, and only then the dispatches: one
    per possible core, in the order of the mask, each a begin, the bootstrap
    of that core, and an end before the next begins. *)
Theorem firq_setup_fiq_regs_order (sys : system) (priv : firq_priv)
    (w : world) :
  trace (exec (firq_setup_fiq_regs sys priv) w)
  = trace w ++ erase_events (cur_cpu w) priv
            ++ preload_events (cur_cpu w) priv
            ++ [EvDmb (cur_cpu w)]
            ++ (cpu_possible sys ≫= bootstrap_events w priv).
Proof.
  rewrite firq_setup_fiq_regs_exec.
  pose proof (erase_loop_ctl priv (Z.to_nat 0x100) 0 w) as [Hc Hb].
  pose proof (erase_loop_trace priv 64 192 0 w eq_refl) as Ht.
  change (64 + 192)%nat with (Z.to_nat 0x100) in Ht.
  change (4 * 0) with 0 in Ht. revert Hc Hb Ht.
  generalize (exec (erase_loop (Z.to_nat 0x100) 0 priv) w).
  intros w1 Hc Hb Ht. apply ctl_inv in Hc as (_ & _ & Hcpu & _).
  rewrite (for_each_cpu_trace_from priv w).
  - rewrite preload_loop_exec. cbn. rewrite Ht, Hcpu, !u32_idem.
    by rewrite <- !app_assoc.
  - intros c. rewrite preload_loop_exec. cbn. by rewrite Hb.
Qed.

(** ** [firq_probe] on its success path *)

Lemma firq_probe_ok (sys : system) (pdev : platform_device) (w : world) :
  firq_singleton w = false → valid_resources pdev → fiq_owner_ret w = 0 →
  ∃ w1, firq_probe sys pdev w = (0, w1)
    ∧ firq_singleton w1 = true ∧ fiq_claimed w1 = true
    ∧ drvdata w1 = Some (priv_of pdev) ∧ cur_cpu w1 = cur_cpu w
    ∧ fiq_vector w1
      = Some (firq_fiq_handler sys,
              u32 (firq_fiq_handler_end sys - firq_fiq_handler sys))
    ∧ fiq_lines w1 = {[pd_irq pdev]} ∪ fiq_lines w
    ∧ fiq_masked w1 = fiq_masked w
    ∧ trace w1 = trace w ++ probe_events sys pdev w.
Proof.
  intros Hs (Ha & Hirq & Hg & Ho & He) Hc.
  unfold firq_probe. step. rewrite Hs, Ha. step.
  destruct (decide (pd_irq pdev < 0)) as [?|_]; [lia|].
  rewrite (proj2 (Z.eqb_neq _ _) Hg), (proj2 (Z.eqb_neq _ _) Ho),
    (proj2 (Z.eqb_neq _ _) He).
  step. rewrite Hc. step.
  destruct (decide (0 ≠ 0)) as [?|_]; [done|].
  destruct (decide (0 = 0)) as [_|?]; [|done]. step.
  match goal with
  | |- context [firq_setup_fiq_regs ?s ?p ?W] =>
      rewrite (run_pair (firq_setup_fiq_regs s p) W);
      pose proof (ctl_inv _ _ (firq_setup_fiq_regs_ctl s p W))
        as (Hsing & Hdrv & Hcpu & Hmask & Hcl & Hvec & Hlines & _);
      pose proof (firq_setup_fiq_regs_order s p W) as Ht;
      revert Hsing Hdrv Hcpu Hmask Hcl Hvec Hlines Ht;
      generalize (exec (firq_setup_fiq_regs s p) W)
  end.
  intros ws Hsing Hdrv Hcpu Hmask Hcl Hvec Hlines Ht. cbn in *.
  eexists. split; [reflexivity|]. cbn.
  rewrite Hcl, Hcpu, Hvec, Hlines, Hmask, Ht.
  repeat split; try done.
  rewrite <- !app_assoc. reflexivity.
Qed.

(** ** [firq_probe] on its error paths *)

Lemma emit_first (e : event) (w : world) :
  emit e w = upd_trace (trace w ++ [e]) w.
Proof. done. Qed.

Lemma emit_upd_trace (e : event) (evs : list event) (w : world) :
  emit e (upd_trace (trace w ++ evs) w) = upd_trace (trace w ++ evs ++ [e]) w.
Proof. unfold emit, upd_trace. cbn. by rewrite <- app_assoc. Qed.

(** Two states that differ in their trace only. *)
Ltac same_but_trace w :=
  rewrite (emit_first _ w), ?emit_upd_trace; reflexivity.

Lemma firq_probe_cases (sys : system) (pdev : platform_device) (w : world) :
  let p := priv_of pdev in
  let resources :=
    [ EvAlloc true; EvGetIrq (irq p);
      EvIoremap 0x00a00100 0x100 (gic_cpu_regs p);
      EvIoremap 0x00940000 0x1000 (ocram_regs p);
      EvIoremap 0x020d4000 0x4000 (epit2_regs p) ] in
  (firq_singleton w = true ∧ firq_probe sys pdev w = (- EBUSY, w))
  ∨ (firq_singleton w = false
     ∧ firq_probe sys pdev w
       = (- ENOMEM, upd_trace (trace w ++ [EvAlloc false]) w))
  ∨ (firq_singleton w = false
     ∧ firq_probe sys pdev w
       = (- EINVAL,
          upd_trace (trace w ++ [ EvAlloc true; EvGetIrq (irq p);
                                  EvLog true "no IRQ defined" ]) w))
  ∨ (firq_singleton w = false
     ∧ firq_probe sys pdev w
       = (- EINVAL,
          upd_trace (trace w ++ resources ++ [EvLog true "ioremap failed"]) w))
  ∨ (firq_singleton w = false ∧ fiq_owner_ret w ≠ 0
     ∧ firq_probe sys pdev w
       = (- ENODEV,
          upd_trace (trace w ++ resources
                       ++ [ EvLog true "gic, ocram, epit, irq";
                            EvClaimFiq "fiqdemo" (fiq_owner_ret w);
                            EvLog true "couldn't claim FIQ." ]) w))
  ∨ (firq_singleton w = false ∧ valid_resources pdev ∧ fiq_owner_ret w = 0).
Proof.
  intros p resources. subst p resources. unfold firq_probe. step.
  destruct (firq_singleton w) eqn:Hs; [by left|]. right.
  destruct (pd_alloc_ok pdev) eqn:Ha; step; [|by left]. right.
  destruct (decide (pd_irq pdev < 0)) as [Hneg|Hirq]; step.
  { left. split; [done|]. same_but_trace w. }
  right.
  destruct (pd_ioremap pdev 10486016 256 =? 0) eqn:Hg; step.
  { left. split; [done|]. same_but_trace w. }
  destruct (pd_ioremap pdev 9699328 4096 =? 0) eqn:Ho; step.
  { left. split; [done|]. same_but_trace w. }
  destruct (pd_ioremap pdev 34422784 16384 =? 0) eqn:He; step.
  { left. split; [done|]. same_but_trace w. }
  right. apply Z.eqb_neq in Hg, Ho, He.
  destruct (decide (fiq_owner_ret w ≠ 0)) as [Hc|Hc]; step.
  - left. split; [done|]. split; [done|].
    destruct (decide (fiq_owner_ret w = 0)); [done|].
    same_but_trace w.
  - right. repeat split; try done; lia.
Qed.

(** ** The teardown *)

Lemma firq_remove_cpu0_exec (priv : firq_priv) (w : world) :
  let w' := exec (firq_remove_cpu0 priv) w in
  eval (firq_remove_cpu0 priv) w = 0
  ∧ firq_singleton w' = false ∧ fiq_claimed w' = false
  ∧ cur_cpu w' = cur_cpu w ∧ drvdata w' = drvdata w
  ∧ fiq_vector w' = fiq_vector w ∧ fiq_banked w' = fiq_banked w
  ∧ fiq_lines w' = fiq_lines w ∖ {[irq priv]}
  ∧ fiq_masked w' = ({[cur_cpu w]} ∪ fiq_masked w) ∖ {[cur_cpu w]}
  ∧ iomem w' = <[epit2_regs priv + 0x0 := 0]> (iomem w)
  ∧ trace w'
    = trace w ++ [ EvLocalFiqDisable (cur_cpu w);
                   EvWritel (cur_cpu w) 0 (epit2_regs priv + 0x0);
                   EvDisableFiq (irq priv);
                   EvLocalFiqEnable (cur_cpu w);
                   EvReleaseFiq "fiqdemo";
                   EvSingleton false ].
Proof.
  run. repeat split. by rewrite <- !app_assoc.
Qed.

Lemma firq_remove_ok (pdev : platform_device) (priv : firq_priv) (w : world) :
  drvdata w = Some priv →
  ∃ w2, firq_remove pdev w = Some (0, w2)
    ∧ firq_singleton w2 = false ∧ fiq_claimed w2 = false
    ∧ cur_cpu w2 = cur_cpu w
    ∧ fiq_lines w2 = fiq_lines w ∖ {[irq priv]}
    ∧ fiq_masked w2 = ({[0]} ∪ fiq_masked w) ∖ {[0]}
    ∧ iomem w2 = <[epit2_regs priv + 0x0 := 0]> (iomem w)
    ∧ trace w2 = trace w ++ teardown_events priv.
Proof.
  intros Hd. unfold firq_remove. rewrite Hd. step.
  eexists. split; [reflexivity|]. cbn. repeat split.
  by rewrite <- !app_assoc.
Qed.

(** ** Properties of the lifecycle *)

(** C1: from an idle driver, a probe on a resource set that resolves
    succeeds and leaves the driver running; the remove that follows returns
    0 and leaves it idle again (flag false, vector released), having logged
    its start and then, on CPU 0: masked FIQs locally, stopped the timer,
    disabled the line, unmasked FIQs locally, released the vector and
    cleared the flag, in that order. *)
Theorem probe_remove_roundtrip (sys : system) (pdev : platform_device)
    (w : world) :
  Idle w → valid_resources pdev → fiq_owner_ret w = 0 →
  ∃ w1 w2,
    firq_probe sys pdev w = (0, w1) ∧ Running w1
    ∧ firq_remove pdev w1 = Some (0, w2) ∧ Idle w2
    ∧ trace w2 = trace w1 ++ teardown_events (priv_of pdev)
    ∧ (pd_irq pdev ∉ fiq_lines w2) ∧ (0 ∉ fiq_masked w2).
Proof.
  intros [Hs _] Hv Hc.
  destruct (firq_probe_ok sys pdev w Hs Hv Hc)
    as (w1 & Hp & Hs1 & Hc1 & Hd1 & _).
  destruct (firq_remove_ok pdev _ w1 Hd1)
    as (w2 & Hr & Hs2 & Hc2 & _ & Hl & Hm & _ & Ht).
  exists w1, w2. repeat split; try done.
  - rewrite Hl. cbn. rewrite not_elem_of_difference. right.
    by apply elem_of_singleton.
  - rewrite Hm. rewrite not_elem_of_difference. right.
    by apply elem_of_singleton.
Qed.

Lemma probe_remove_roundtrip_witness :
  ∃ w1 w2,
    firq_probe quad pdev_ok (idle_world 2) = (0, w1) ∧ Running w1
    ∧ firq_remove pdev_ok w1 = Some (0, w2) ∧ Idle w2
    ∧ trace w2 = trace w1 ++ teardown_events (priv_of pdev_ok)
    ∧ (pd_irq pdev_ok ∉ fiq_lines w2) ∧ (0 ∉ fiq_masked w2).
Proof.
  apply (probe_remove_roundtrip quad pdev_ok (idle_world 2)).
  - split; reflexivity.
  - unfold valid_resources. cbn. repeat split; lia.
  - reflexivity.
Defined.

(** C3: a probe entered with the singleton flag set returns -EBUSY and
    leaves the whole state, the record of observable actions included, as
    it found it. *)
Theorem firq_probe_busy (sys : system) (pdev : platform_device) (w : world) :
  firq_singleton w = true → firq_probe sys pdev w = (- EBUSY, w).
Proof.
  intros Hs. unfold firq_probe. step. by rewrite Hs.
Qed.

Lemma firq_probe_busy_witness :
  firq_probe quad pdev_ok (running_world 0) = (- EBUSY, running_world 0).
Proof.
  apply (firq_probe_busy quad pdev_ok (running_world 0)).
  vm_compute. reflexivity.
Defined.

(** C4, as the code has it: a remove is never refused.  From whichever core
    it is issued, the teardown is dispatched to CPU 0, runs there in full,
    and the call returns 0 on the calling core with the driver idle. *)
Theorem firq_remove_runs_on_cpu0 (pdev : platform_device) (priv : firq_priv)
    (w : world) :
  Running w → drvdata w = Some priv →
  ∃ w2, firq_remove pdev w = Some (0, w2) ∧ Idle w2
    ∧ cur_cpu w2 = cur_cpu w
    ∧ trace w2 = trace w ++ teardown_events priv.
Proof.
  intros _ Hd.
  destruct (firq_remove_ok pdev priv w Hd)
    as (w2 & Hr & Hs2 & Hc2 & Hcpu & _ & _ & _ & Ht).
  by exists w2.
Qed.

Lemma firq_remove_runs_on_cpu0_witness :
  ∃ w2, firq_remove pdev_ok (upd_cpu 3 (running_world 0)) = Some (0, w2)
    ∧ Idle w2 ∧ cur_cpu w2 = cur_cpu (upd_cpu 3 (running_world 0))
    ∧ trace w2
      = trace (upd_cpu 3 (running_world 0)) ++ teardown_events priv_ok.
Proof.
  apply (firq_remove_runs_on_cpu0 pdev_ok priv_ok
           (upd_cpu 3 (running_world 0))).
  - split; vm_compute; reflexivity.
  - vm_compute. reflexivity.
Defined.

(** C4 as stated fails: the driver was started on CPU 0, the remove is
    issued from CPU 1, and it returns 0 with the driver idle instead of
    being refused with the state left running. *)
Lemma firq_remove_from_other_core_executes :
  let w := upd_cpu 1 (running_world 0) in
  cur_cpu (idle_world 0) = 0 ∧ cur_cpu w = 1 ∧ Running w
  ∧ ∃ w2, firq_remove pdev_ok w = Some (0, w2) ∧ Idle w2
      ∧ EvReleaseFiq "fiqdemo" ∈ trace w2.
Proof.
  cbv zeta. split; [reflexivity|]. split; [reflexivity|].
  split; [split; vm_compute; reflexivity|].
  destruct (firq_remove_ok pdev_ok priv_ok (upd_cpu 1 (running_world 0)))
    as (w2 & Hr & Hs2 & Hc2 & _ & _ & _ & _ & Ht).
  { vm_compute. reflexivity. }
  exists w2. split; [exact Hr|]. split; [split; assumption|].
  clear Hr. rewrite Ht. apply elem_of_app. right.
  apply list_elem_of_lookup. exists 6%nat. reflexivity.
Qed.

(** C5, as the code has it: the teardown stores 0 to the control register
    of the timer, so every bit of it is cleared, the enable bit and the
    configuration bits alike; no other word of I/O memory, the reload
    register included, is written. *)
Theorem firq_remove_cpu0_timer (priv : firq_priv) (w : world) :
  let w' := exec (firq_remove_cpu0 priv) w in
  iomem w' = <[epit2_regs priv + 0x0 := 0]> (iomem w)
  ∧ (∃ v, iomem w' !! (epit2_regs priv + 0x0) = Some v
          ∧ ∀ n, Z.testbit v n = false)
  ∧ iomem w' !! (epit2_regs priv + 0x8) = iomem w !! (epit2_regs priv + 0x8).
Proof.
  intros w'. subst w'.
  destruct (firq_remove_cpu0_exec priv w)
    as (_ & _ & _ & _ & _ & _ & _ & _ & _ & Hio & _).
  rewrite Hio. repeat split.
  - exists 0. split; [apply lookup_insert_eq|apply Z.testbit_0_l].
  - apply lookup_insert_ne. lia.
Qed.

(** C5 as stated fails: after a successful probe the control register
    holds 0x0208000f; the teardown leaves 0 there, not the same word with
    only the enable bit cleared, and the reload-mode bit 3 is lost. *)
Lemma firq_remove_cpu0_clears_configuration :
  let cr := epit2_regs priv_ok + 0x0 in
  let w := running_world 0 in
  let w' := exec (firq_remove_cpu0 priv_ok) w in
  iomem w !! cr = Some 0x0208000f
  ∧ iomem w' !! cr = Some 0
  ∧ iomem w' !! cr ≠ Some (Z.land 0x0208000f (Z.lnot 1))
  ∧ Z.testbit 0x0208000f 3 = true ∧ Z.testbit 0 3 = false.
Proof.
  cbv zeta. repeat split; try (vm_compute; reflexivity).
  vm_compute. discriminate.
Qed.

(** C6, as the code has it: the length of the handler blob is not checked.
    With the end symbol equal to the start symbol, a probe from an idle
    driver on resources that resolve still claims the vector, binds the
    handler with length 0, and returns 0 with the driver running. *)
Theorem firq_probe_empty_handler (sys : system) (pdev : platform_device)
    (w : world) :
  firq_fiq_handler_end sys = firq_fiq_handler sys →
  Idle w → valid_resources pdev → fiq_owner_ret w = 0 →
  ∃ w1, firq_probe sys pdev w = (0, w1) ∧ Running w1
    ∧ fiq_vector w1 = Some (firq_fiq_handler sys, 0)
    ∧ EvSetFiqHandler (firq_fiq_handler sys) 0 ∈ trace w1.
Proof.
  intros Hlen [Hs _] Hv Hc.
  destruct (firq_probe_ok sys pdev w Hs Hv Hc)
    as (w1 & Hp & Hs1 & Hc1 & _ & _ & Hvec & _ & _ & Ht).
  exists w1. rewrite Hlen, Z.sub_diag in Hvec.
  split; [exact Hp|]. split; [by split|]. split; [exact Hvec|].
  rewrite Ht. apply elem_of_app. right. unfold probe_events.
  rewrite Hlen, Z.sub_diag. apply elem_of_app. left.
  apply list_elem_of_lookup. exists 10%nat. reflexivity.
Qed.

Lemma firq_probe_empty_handler_witness :
  ∃ w1, firq_probe quad_empty pdev_ok (idle_world 0) = (0, w1) ∧ Running w1
    ∧ fiq_vector w1 = Some (firq_fiq_handler quad_empty, 0)
    ∧ EvSetFiqHandler (firq_fiq_handler quad_empty) 0 ∈ trace w1.
Proof.
  apply (firq_probe_empty_handler quad_empty pdev_ok (idle_world 0)).
  - reflexivity.
  - split; reflexivity.
  - unfold valid_resources. cbn. repeat split; lia.
  - reflexivity.
Defined.

(** C6 as stated fails: linked with an empty handler blob, the probe
    returns 0, not an error, the vector is bound to the blob with length 0,
    and the driver is running. *)
Lemma firq_probe_accepts_empty_handler :
  let w1 := exec (firq_probe quad_empty pdev_ok) (idle_world 0) in
  u32 (firq_fiq_handler_end quad_empty - firq_fiq_handler quad_empty) = 0
  ∧ eval (firq_probe quad_empty pdev_ok) (idle_world 0) = 0
  ∧ fiq_vector w1 = Some (firq_fiq_handler quad_empty, 0)
  ∧ firq_singleton w1 = true ∧ fiq_claimed w1 = true.
Proof.
  cbv zeta. repeat split; vm_compute; reflexivity.
Qed.

(** C7, as the code has it: the timer is started by six stores: control
    register 0, reload register 0xffff, status register 1, control register
    0x0208000f (bits 0 EN, 1 ENMOD, 2 OCIEN, 3 RLD, 19 WAITEN and clock
    source 2 in bits 25:24), reload register 0xffff once more, status
    register 1; and they are the last actions of every probe that returns
    0. *)
Theorem epit_start_sequence (sys : system) (pdev : platform_device)
    (priv : firq_priv) (w : world) :
  trace (exec (epit_start priv) w)
  = trace w ++ epit_start_events (cur_cpu w) priv
  ∧ epit_control_word = 0x0208000f
  ∧ (∀ n, Z.testbit epit_control_word n = true ↔ n ∈ [0; 1; 2; 3; 19; 25])
  ∧ (eval (firq_probe sys pdev) w ≠ 0
     ∨ ∃ pre, trace (exec (firq_probe sys pdev) w)
              = pre ++ epit_start_events (cur_cpu w) (priv_of pdev)).
Proof.
  split; [|split; [|split]].
  - run. by rewrite <- !app_assoc.
  - reflexivity.
  - intros n. change epit_control_word with 0x0208000f.
    rewrite !elem_of_cons, elem_of_nil. split.
    + intros Hb. destruct (decide (0 ≤ n < 26)) as [Hn|Hn].
      * assert (Hcases : n = 0 ∨ n = 1 ∨ n = 2 ∨ n = 3 ∨ n = 4 ∨ n = 5
                 ∨ n = 6 ∨ n = 7 ∨ n = 8 ∨ n = 9 ∨ n = 10 ∨ n = 11
                 ∨ n = 12 ∨ n = 13 ∨ n = 14 ∨ n = 15 ∨ n = 16 ∨ n = 17
                 ∨ n = 18 ∨ n = 19 ∨ n = 20 ∨ n = 21 ∨ n = 22 ∨ n = 23
                 ∨ n = 24 ∨ n = 25) by lia.
        repeat (destruct Hcases as [->|Hcases]; [try discriminate Hb; tauto|]).
        subst n. tauto.
      * exfalso. destruct (decide (n < 0)) as [Hneg|Hpos].
        -- rewrite Z.testbit_neg_r in Hb by done. discriminate.
        -- rewrite (Z.bits_above_log2 0x0208000f n) in Hb;
             [discriminate|lia|].
           change (Z.log2 0x0208000f) with 25. lia.
    + intros [->|[->|[->|[->|[->|[->|[]]]]]]]; reflexivity.
  - destruct (firq_probe_cases sys pdev w)
      as [[_ H]|[[_ H]|[[_ H]|[[_ H]|[(_ & _ & H)|(Hs & Hv & Hc)]]]]];
      try (left; unfold eval; rewrite H; discriminate).
    right. destruct (firq_probe_ok sys pdev w Hs Hv Hc)
      as (w1 & Hp & _ & _ & _ & _ & _ & _ & _ & Ht).
    unfold exec. rewrite Hp. cbn [snd]. rewrite Ht. unfold probe_events.
    eexists. rewrite !app_assoc. reflexivity.
Qed.

(** C7 as stated fails: the stores of the start sequence are six, not the
    five that are documented; the reload register is written a second time
    between the enabling control word and the final status clear. *)
Lemma epit_start_writes_reload_twice :
  trace (exec (epit_start priv_ok) (idle_world 0))
  = epit_start_events 0 priv_ok
  ∧ epit_start_events 0 priv_ok ≠ epit_documented_events 0 priv_ok
  ∧ epit_start_events 0 priv_ok !! 4%nat
    = Some (EvWritel 0 0xffff (epit2_regs priv_ok + 0x8))
  ∧ epit_documented_events 0 priv_ok !! 4%nat
    = Some (EvWritel 0 1 (epit2_regs priv_ok + 0x4)).
Proof.
  repeat split; try (vm_compute; reflexivity).
  vm_compute. discriminate.
Qed.

(** C10, as the code has it: a probe either returns 0, with the vector
    claimed and then the singleton flag set, or returns one of -EBUSY,
    -ENOMEM, -EINVAL, -ENODEV having changed nothing but the record of
    observable actions: the flag and the ownership of the vector are as
    they were before the call, no claim was granted, and nothing was stored
    to I/O memory.  On the -EBUSY return the flag was set and stays set. *)
Theorem firq_probe_error_paths (sys : system) (pdev : platform_device)
    (w : world) :
  let r := eval (firq_probe sys pdev) w in
  let w' := exec (firq_probe sys pdev) w in
  (r = 0 ∧ firq_singleton w = false
   ∧ firq_singleton w' = true ∧ fiq_claimed w' = true
   ∧ trace w' = trace w ++ probe_events sys pdev w)
  ∨ (r ≠ 0 ∧ r ∈ [- EBUSY; - ENOMEM; - EINVAL; - ENODEV]
     ∧ firq_singleton w' = firq_singleton w
     ∧ fiq_claimed w' = fiq_claimed w
     ∧ (r = - EBUSY ↔ firq_singleton w = true)
     ∧ ∃ evs, w' = upd_trace (trace w ++ evs) w
         ∧ (EvClaimFiq (fh_name fh) 0 ∉ evs)
         ∧ (∀ c v a, EvWritel c v a ∉ evs)).
Proof.
  intros r w'. subst r w'. unfold eval, exec.
  destruct (firq_probe_cases sys pdev w)
    as [[Hs H]|[[Hs H]|[[Hs H]|[[Hs H]|[(Hs & Hr & H)|(Hs & Hv & Hc)]]]]].
  - right. rewrite H. cbn [fst snd]. rewrite Hs.
    repeat split; try done.
    + apply list_elem_of_lookup. by exists 0%nat.
    + exists []. split; [|split].
      * destruct w. unfold upd_trace. cbn. by rewrite app_nil_r.
      * apply not_elem_of_nil.
      * intros c v a. apply not_elem_of_nil.
  - right. rewrite H. cbn [fst snd]. rewrite Hs.
    repeat split; try done.
    + apply list_elem_of_lookup. by exists 1%nat.
    + eexists. split; [reflexivity|]. split; [|intros c v a];
        rewrite ?elem_of_cons, elem_of_nil; intros Hin;
        repeat destruct Hin as [Hin|Hin]; done.
  - right. rewrite H. cbn [fst snd]. rewrite Hs.
    repeat split; try done.
    + apply list_elem_of_lookup. by exists 2%nat.
    + eexists. split; [reflexivity|]. split; [|intros c v a];
        rewrite ?elem_of_cons, elem_of_nil; intros Hin;
        repeat destruct Hin as [Hin|Hin]; done.
  - right. rewrite H. cbn [fst snd]. rewrite Hs.
    repeat split; try done.
    + apply list_elem_of_lookup. by exists 2%nat.
    + eexists. split; [reflexivity|]. cbn [app]. split; [|intros c v a];
        rewrite ?elem_of_cons, elem_of_nil; intros Hin;
        repeat destruct Hin as [Hin|Hin]; done.
  - right. rewrite H. cbn [fst snd]. rewrite Hs.
    repeat split; try done.
    + apply list_elem_of_lookup. by exists 3%nat.
    + eexists. split; [reflexivity|]. cbn [app]. split; [|intros c v a];
        rewrite ?elem_of_cons, elem_of_nil; intros Hin;
        repeat destruct Hin as [Hin|Hin]; try done.
      injection Hin as Hz. by rewrite <- Hz in Hr.
  - left. destruct (firq_probe_ok sys pdev w Hs Hv Hc)
      as (w1 & Hp & Hs1 & Hc1 & _ & _ & _ & _ & _ & Ht).
    rewrite Hp. by cbn [fst snd].
Qed.

(** C10 as stated fails on the -EBUSY path: probed again while running,
    the driver returns the nonzero -EBUSY with the singleton flag set and
    the vector held. *)
Lemma firq_probe_busy_keeps_flag_set :
  let w := running_world 0 in
  eval (firq_probe quad pdev_ok) w = - EBUSY
  ∧ eval (firq_probe quad pdev_ok) w ≠ 0
  ∧ firq_singleton (exec (firq_probe quad pdev_ok) w) = true
  ∧ fiq_claimed (exec (firq_probe quad pdev_ok) w) = true.
Proof.
  cbv zeta. repeat split; try (vm_compute; reflexivity).
  vm_compute. discriminate.
Qed.

(** ** Further properties: the error paths of [firq_probe] *)

(** X1: [firq_probe] returns 0 exactly when it is entered with the
    singleton flag clear, every resource resolves and [claim_fiq] grants
    the vector. *)
Theorem firq_probe_succeeds_iff (sys : system) (pdev : platform_device)
    (w : world) :
  eval (firq_probe sys pdev) w = 0
  ↔ firq_singleton w = false ∧ valid_resources pdev ∧ fiq_owner_ret w = 0.
Proof.
  split.
  - intros Hr. unfold eval in Hr.
    destruct (firq_probe_cases sys pdev w)
      as [[_ H]|[[_ H]|[[_ H]|[[_ H]|[(_ & _ & H)|Hok]]]]];
      try (rewrite H in Hr; discriminate Hr).
    exact Hok.
  - intros (Hs & Hv & Hc).
    destruct (firq_probe_ok sys pdev w Hs Hv Hc) as (w1 & Hp & _).
    unfold eval. by rewrite Hp.
Qed.

(** X2: when the allocation of the private data fails, the probe returns
    -ENOMEM at once: the interrupt line is not looked up, nothing is mapped
    or claimed, and the state changes in its record of actions only. *)
Theorem firq_probe_enomem (sys : system) (pdev : platform_device)
    (w : world) :
  firq_singleton w = false → pd_alloc_ok pdev = false →
  firq_probe sys pdev w
  = (- ENOMEM, upd_trace (trace w ++ [EvAlloc false]) w).
Proof.
  intros Hs Ha. unfold firq_probe. step. by rewrite Hs, Ha.
Qed.

Lemma firq_probe_enomem_witness :
  firq_probe quad pdev_nomem (idle_world 0)
  = (- ENOMEM,
     upd_trace (trace (idle_world 0) ++ [EvAlloc false]) (idle_world 0)).
Proof.
  apply (firq_probe_enomem quad pdev_nomem (idle_world 0)); reflexivity.
Defined.

(** X3: a negative result of [platform_get_irq] makes the probe return
    -EINVAL before any window is mapped: it has allocated, asked for the
    line and logged the failure, and nothing else. *)
Theorem firq_probe_no_irq (sys : system) (pdev : platform_device)
    (w : world) :
  firq_singleton w = false → pd_alloc_ok pdev = true → pd_irq pdev < 0 →
  firq_probe sys pdev w
  = (- EINVAL,
     upd_trace (trace w ++ [ EvAlloc true; EvGetIrq (pd_irq pdev);
                             EvLog true "no IRQ defined" ]) w).
Proof.
  intros Hs Ha Hirq. unfold firq_probe. step. rewrite Hs, Ha. step.
  destruct (decide (pd_irq pdev < 0)) as [_|?]; [|done]. step.
  f_equal. same_but_trace w.
Qed.

Lemma firq_probe_no_irq_witness :
  firq_probe quad pdev_noirq (idle_world 0)
  = (- EINVAL,
     upd_trace (trace (idle_world 0)
                  ++ [ EvAlloc true; EvGetIrq (pd_irq pdev_noirq);
                       EvLog true "no IRQ defined" ]) (idle_world 0)).
Proof.
  apply (firq_probe_no_irq quad pdev_noirq (idle_world 0));
    [reflexivity|reflexivity|cbn; lia].
Defined.

(** X4: when one of the three windows maps to NULL, the probe returns
    -EINVAL after having requested all three mappings and before claiming
    the vector; the state changes in its record of actions only. *)
Theorem firq_probe_no_mapping (sys : system) (pdev : platform_device)
    (w : world) :
  firq_singleton w = false → pd_alloc_ok pdev = true → 0 ≤ pd_irq pdev →
  pd_ioremap pdev 0x00a00100 0x100 = 0
  ∨ pd_ioremap pdev 0x00940000 0x1000 = 0
  ∨ pd_ioremap pdev 0x020d4000 0x4000 = 0 →
  firq_probe sys pdev w
  = (- EINVAL,
     upd_trace
       (trace w ++ [ EvAlloc true; EvGetIrq (pd_irq pdev);
                     EvIoremap 0x00a00100 0x100
                       (pd_ioremap pdev 0x00a00100 0x100);
                     EvIoremap 0x00940000 0x1000
                       (pd_ioremap pdev 0x00940000 0x1000);
                     EvIoremap 0x020d4000 0x4000
                       (pd_ioremap pdev 0x020d4000 0x4000);
                     EvLog true "ioremap failed" ]) w).
Proof.
  intros Hs Ha Hirq Hnull. unfold firq_probe. step. rewrite Hs, Ha. step.
  destruct (decide (pd_irq pdev < 0)) as [?|_]; [lia|]. step.
  assert (Hor : (pd_ioremap pdev 10486016 256 =? 0)
                || (pd_ioremap pdev 9699328 4096 =? 0)
                || (pd_ioremap pdev 34422784 16384 =? 0) = true).
  { destruct Hnull as [H|[H|H]]; rewrite H; cbn;
      rewrite ?orb_true_r; reflexivity. }
  rewrite Hor. step. f_equal. same_but_trace w.
Qed.

Lemma firq_probe_no_mapping_witness :
  firq_probe quad pdev_nomap (idle_world 0)
  = (- EINVAL,
     upd_trace
       (trace (idle_world 0)
          ++ [ EvAlloc true; EvGetIrq (pd_irq pdev_nomap);
               EvIoremap 0x00a00100 0x100
                 (pd_ioremap pdev_nomap 0x00a00100 0x100);
               EvIoremap 0x00940000 0x1000
                 (pd_ioremap pdev_nomap 0x00940000 0x1000);
               EvIoremap 0x020d4000 0x4000
                 (pd_ioremap pdev_nomap 0x020d4000 0x4000);
               EvLog true "ioremap failed" ]) (idle_world 0)).
Proof.
  apply (firq_probe_no_mapping quad pdev_nomap (idle_world 0));
    [reflexivity|reflexivity|cbn; lia|right; left; reflexivity].
Defined.

(** X5: when [claim_fiq] refuses the vector, the probe returns -ENODEV,
    whatever code the refusal carried; no handler is bound, nothing is
    stored to I/O memory and the singleton flag stays clear. *)
Theorem firq_probe_claim_refused (sys : system) (pdev : platform_device)
    (w : world) :
  firq_singleton w = false → valid_resources pdev → fiq_owner_ret w ≠ 0 →
  firq_probe sys pdev w
  = (- ENODEV,
     upd_trace
       (trace w ++ [ EvAlloc true; EvGetIrq (pd_irq pdev);
                     EvIoremap 0x00a00100 0x100
                       (pd_ioremap pdev 0x00a00100 0x100);
                     EvIoremap 0x00940000 0x1000
                       (pd_ioremap pdev 0x00940000 0x1000);
                     EvIoremap 0x020d4000 0x4000
                       (pd_ioremap pdev 0x020d4000 0x4000);
                     EvLog true "gic, ocram, epit, irq";
                     EvClaimFiq "fiqdemo" (fiq_owner_ret w);
                     EvLog true "couldn't claim FIQ." ]) w).
Proof.
  intros Hs (Ha & Hirq & Hg & Ho & He) Hc.
  unfold firq_probe. step. rewrite Hs, Ha. step.
  destruct (decide (pd_irq pdev < 0)) as [?|_]; [lia|].
  rewrite (proj2 (Z.eqb_neq _ _) Hg), (proj2 (Z.eqb_neq _ _) Ho),
    (proj2 (Z.eqb_neq _ _) He).
  step. destruct (decide (fiq_owner_ret w ≠ 0)) as [_|?]; [|done]. step.
  destruct (decide (fiq_owner_ret w = 0)) as [?|_]; [done|].
  f_equal. same_but_trace w.
Qed.

Lemma firq_probe_claim_refused_witness :
  firq_probe quad pdev_ok (refused_world 0)
  = (- ENODEV,
     upd_trace
       (trace (refused_world 0)
          ++ [ EvAlloc true; EvGetIrq (pd_irq pdev_ok);
               EvIoremap 0x00a00100 0x100
                 (pd_ioremap pdev_ok 0x00a00100 0x100);
               EvIoremap 0x00940000 0x1000
                 (pd_ioremap pdev_ok 0x00940000 0x1000);
               EvIoremap 0x020d4000 0x4000
                 (pd_ioremap pdev_ok 0x020d4000 0x4000);
               EvLog true "gic, ocram, epit, irq";
               EvClaimFiq "fiqdemo" (fiq_owner_ret (refused_world 0));
               EvLog true "couldn't claim FIQ." ]) (refused_world 0)).
Proof.
  apply (firq_probe_claim_refused quad pdev_ok (refused_world 0)).
  - reflexivity.
  - unfold valid_resources. cbn. repeat split; lia.
  - cbn. lia.
Defined.

(** ** Further properties: the state a successful probe leaves *)

Lemma firq_setup_fiq_regs_lookup (sys : system) (priv : firq_priv)
    (w : world) (k : Z) :
  0 ≤ k < 64 →
  iomem (exec (firq_setup_fiq_regs sys priv) w) !! (ocram_regs priv + 4 * k)
  = Some (shared_region_word priv k).
Proof.
  intros Hk. rewrite firq_setup_fiq_regs_iomem. unfold shared_region_word.
  destruct (decide (k = 0)) as [->|H0].
  { rewrite !lookup_insert_ne by lia. by rewrite lookup_insert_eq. }
  destruct (decide (k = 1)) as [->|H1].
  { rewrite lookup_insert_ne by lia. by rewrite lookup_insert_eq. }
  destruct (decide (k = 2)) as [->|H2].
  { by rewrite lookup_insert_eq. }
  rewrite !lookup_insert_ne by lia.
  change 0 with (4 * 0) at 1. rewrite erase_loop_iomem.
  destruct (decide (_ ∧ _)); [done|]. exfalso; lia.
Qed.

Lemma firq_probe_ok_mem (sys : system) (pdev : platform_device) (w : world) :
  firq_singleton w = false → valid_resources pdev → fiq_owner_ret w = 0 →
  let p := priv_of pdev in
  let w1 := exec (firq_probe sys pdev) w in
  (∃ m, iomem w1
        = <[epit2_regs p + 4 := 1]>
            (<[epit2_regs p + 8 := 0xffff]>
               (<[epit2_regs p + 0 := 0x0208000f]>
                  (<[epit2_regs p + 4 := 1]>
                     (<[epit2_regs p + 8 := 0xffff]>
                        (<[epit2_regs p + 0 := 0]> m)))))
        ∧ (∀ k, 0 ≤ k < 64 →
             m !! (ocram_regs p + 4 * k) = Some (shared_region_word p k))
        ∧ (∀ a, (∀ k, 0 ≤ k < 64 → a ≠ ocram_regs p + 4 * k) →
             m !! a = iomem w !! a))
  ∧ (∀ c, fiq_banked w1 c
          = if decide (c ∈ cpu_possible sys)
            then with_sp_fiq (u32 (ocram_regs p)) (fiq_banked w c)
            else fiq_banked w c)
  ∧ fiq_owner_ret w1 = fiq_owner_ret w.
Proof.
  intros Hs (Ha & Hirq & Hg & Ho & He) Hc p w1. subst p w1.
  unfold exec at 1 2 3, firq_probe. step. rewrite Hs, Ha. step.
  destruct (decide (pd_irq pdev < 0)) as [?|_]; [lia|].
  rewrite (proj2 (Z.eqb_neq _ _) Hg), (proj2 (Z.eqb_neq _ _) Ho),
    (proj2 (Z.eqb_neq _ _) He).
  step. rewrite Hc. step.
  destruct (decide (0 ≠ 0)) as [?|_]; [done|].
  destruct (decide (0 = 0)) as [_|?]; [|done]. step.
  match goal with
  | |- context [firq_setup_fiq_regs ?s ?p ?W] =>
      rewrite (run_pair (firq_setup_fiq_regs s p) W);
      pose proof (ctl_inv _ _ (firq_setup_fiq_regs_ctl s p W))
        as (_ & _ & _ & _ & _ & _ & _ & Hret & _);
      pose proof (firq_setup_fiq_regs_lookup s p W) as Hin;
      pose proof (firq_setup_fiq_regs_iomem_frame s p W) as Hout;
      pose proof (firq_setup_fiq_regs_banked s p W) as Hbank;
      revert Hret Hin Hout Hbank;
      generalize (exec (firq_setup_fiq_regs s p) W)
  end.
  intros ws Hret Hin Hout Hbank. cbn in *.
  split; [|split].
  - exists (iomem ws). split; [reflexivity|]. split; assumption.
  - exact Hbank.
  - by rewrite Hret.
Qed.





(** X8: [firq_setup_fiq_regs] leaves the FIQ stack pointer of every
    possible core at the address of the shared region, with the other six
    banked registers of that core as they were; cores outside the mask keep
    their whole bank. *)
Theorem firq_setup_fiq_regs_every_core (sys : system) (priv : firq_priv)
    (w : world) (c : Z) :
  fiq_banked (exec (firq_setup_fiq_regs sys priv) w) c
  = if decide (c ∈ cpu_possible sys)
    then {| r8_fiq := r8_fiq (fiq_banked w c);
            r9_fiq := r9_fiq (fiq_banked w c);
            r10_fiq := r10_fiq (fiq_banked w c);
            fp_fiq := fp_fiq (fiq_banked w c);
            ip_fiq := ip_fiq (fiq_banked w c);
            sp_fiq := u32 (ocram_regs priv);
            lr_fiq := lr_fiq (fiq_banked w c) |}
    else fiq_banked w c.
Proof. apply firq_setup_fiq_regs_banked. Qed.

(** X9: running [firq_setup_fiq_regs] a second time changes neither I/O
    memory nor any register bank: provisioning and bootstrap are
    idempotent. *)
Theorem firq_setup_fiq_regs_idempotent (sys : system) (priv : firq_priv)
    (w : world) :
  let w1 := exec (firq_setup_fiq_regs sys priv) w in
  let w2 := exec (firq_setup_fiq_regs sys priv) w1 in
  iomem w2 = iomem w1 ∧ (∀ c, fiq_banked w2 c = fiq_banked w1 c)
  ∧ ctl w2 = ctl w1.
Proof.
  intros w1 w2. subst w1 w2. split; [|split].
  - apply map_eq. intros a.
    destruct (decide (0 ≤ a - ocram_regs priv < 256
                      ∧ (a - ocram_regs priv) mod 4 = 0)) as [[Hr Hm]|Hn].
    + pose proof (Z_div_mod_eq_full (a - ocram_regs priv) 4) as Hd.
      replace a with (ocram_regs priv + 4 * ((a - ocram_regs priv) / 4))
        by lia.
      assert (0 ≤ (a - ocram_regs priv) / 4 < 64) by lia.
      by rewrite !firq_setup_fiq_regs_lookup.
    + apply firq_setup_fiq_regs_iomem_frame. intros k Hk ->. apply Hn.
      replace (ocram_regs priv + 4 * k - ocram_regs priv) with (k * 4)
        by lia.
      split; [lia|apply Z_mod_mult].
  - intros c. rewrite !firq_setup_fiq_regs_banked.
    destruct (decide (c ∈ cpu_possible sys)); [|done].
    apply with_sp_fiq_idem.
  - apply firq_setup_fiq_regs_ctl.
Qed.


(** ** Further properties: teardown and restart *)

Lemma firq_remove_state (pdev : platform_device) (priv : firq_priv)
    (w : world) :
  drvdata w = Some priv →
  ∃ w2, firq_remove pdev w = Some (0, w2)
    ∧ firq_singleton w2 = false ∧ fiq_claimed w2 = false
    ∧ fiq_banked w2 = fiq_banked w ∧ fiq_vector w2 = fiq_vector w
    ∧ drvdata w2 = drvdata w ∧ fiq_owner_ret w2 = fiq_owner_ret w
    ∧ fiq_lines w2 = fiq_lines w ∖ {[irq priv]}
    ∧ fiq_masked w2 = ({[0]} ∪ fiq_masked w) ∖ {[0]}
    ∧ iomem w2 = <[epit2_regs priv + 0x0 := 0]> (iomem w).
Proof.
  intros Hd. unfold firq_remove. rewrite Hd. step.
  eexists. split; [reflexivity|]. cbn. repeat split. exact Hd.
Qed.



(** X12: the driver can be started again after it was removed: from an
    idle state, probe, remove and a second probe all return 0 and the
    driver is running at the end. *)
Theorem probe_remove_probe (sys : system) (pdev : platform_device)
    (w : world) :
  Idle w → valid_resources pdev → fiq_owner_ret w = 0 →
  ∃ w1 w2 w3,
    firq_probe sys pdev w = (0, w1)
    ∧ firq_remove pdev w1 = Some (0, w2)
    ∧ firq_probe sys pdev w2 = (0, w3) ∧ Running w3.
Proof.
  intros [Hs _] Hv Hc.
  destruct (firq_probe_ok sys pdev w Hs Hv Hc)
    as (w1 & Hp & _ & _ & Hd1 & _).
  destruct (firq_probe_ok_mem sys pdev w Hs Hv Hc) as (_ & _ & Hret).
  unfold exec in Hret. rewrite Hp in Hret. cbn [snd] in Hret.
  destruct (firq_remove_state pdev _ w1 Hd1)
    as (w2 & Hr & Hs2 & _ & _ & _ & _ & Hret2 & _).
  assert (Hc2 : fiq_owner_ret w2 = 0) by congruence.
  destruct (firq_probe_ok sys pdev w2 Hs2 Hv Hc2)
    as (w3 & Hp3 & Hs3 & Hc3 & _).
  exists w1, w2, w3. repeat split; assumption.
Qed.

Lemma probe_remove_probe_witness :
  ∃ w1 w2 w3,
    firq_probe quad pdev_ok (idle_world 1) = (0, w1)
    ∧ firq_remove pdev_ok w1 = Some (0, w2)
    ∧ firq_probe quad pdev_ok w2 = (0, w3) ∧ Running w3.
Proof.
  apply (probe_remove_probe quad pdev_ok (idle_world 1)).
  - split; reflexivity.
  - unfold valid_resources. cbn. repeat split; lia.
  - reflexivity.
Defined.



(** X14: a probe that failed can be retried: after any nonzero return
    from an idle driver, a probe on resources that resolve succeeds,
    provided the vector is free. *)
Theorem firq_probe_retry (sys : system) (bad good : platform_device)
    (w : world) :
  Idle w → fiq_owner_ret w = 0 → valid_resources good →
  eval (firq_probe sys bad) w ≠ 0 →
  ∃ w2, firq_probe sys good (exec (firq_probe sys bad) w) = (0, w2)
        ∧ Running w2.
Proof.
  intros [Hs _] Hc Hv Hr.
  assert (He : ∃ evs, exec (firq_probe sys bad) w
                      = upd_trace (trace w ++ evs) w).
  { unfold eval in Hr. unfold exec.
    destruct (firq_probe_cases sys bad w)
      as [[Hs' _]|[[_ H]|[[_ H]|[[_ H]|[(_ & _ & H)|(_ & Hv' & _)]]]]].
    - congruence.
    - rewrite H. by eexists.
    - rewrite H. by eexists.
    - rewrite H. by eexists.
    - rewrite H. by eexists.
    - exfalso. apply Hr.
      destruct (firq_probe_ok sys bad w Hs Hv' Hc) as (w1 & Hp & _).
      by rewrite Hp. }
  destruct He as (evs & ->).
  destruct (firq_probe_ok sys good (upd_trace (trace w ++ evs) w) Hs Hv Hc)
    as (w2 & Hp & Hs2 & Hc2 & _).
  exists w2. by repeat split.
Qed.

Lemma firq_probe_retry_witness :
  ∃ w2, firq_probe quad pdev_ok (exec (firq_probe quad pdev_noirq)
                                      (idle_world 0)) = (0, w2)
        ∧ Running w2.
Proof.
  apply (firq_probe_retry quad pdev_noirq pdev_ok (idle_world 0)).
  - split; reflexivity.
  - reflexivity.
  - unfold valid_resources. cbn. repeat split; lia.
  - vm_compute. discriminate.
Defined.

(** X15: a successful probe records the private data it built as driver
    data, binds the handler, adds its own line to the enabled ones and
    leaves the others, masks no FIQ, and returns on the core it was called
    on. *)
Theorem firq_probe_success_state (sys : system) (pdev : platform_device)
    (w : world) :
  firq_singleton w = false → valid_resources pdev → fiq_owner_ret w = 0 →
  let w1 := exec (firq_probe sys pdev) w in
  drvdata w1 = Some (priv_of pdev)
  ∧ (∀ l, l ∈ fiq_lines w1 ↔ l = pd_irq pdev ∨ l ∈ fiq_lines w)
  ∧ fiq_masked w1 = fiq_masked w
  ∧ cur_cpu w1 = cur_cpu w
  ∧ ∃ len, fiq_vector w1 = Some (firq_fiq_handler sys, len).
Proof.
  intros Hs Hv Hc w1. subst w1.
  destruct (firq_probe_ok sys pdev w Hs Hv Hc)
    as (w1 & Hp & _ & _ & Hd & Hcpu & Hvec & Hl & Hm & _).
  unfold exec. rewrite Hp. cbn [snd]. clear Hp.
  split; [exact Hd|]. split; [|split; [exact Hm|split; [exact Hcpu|]]].
  - intros l. rewrite Hl, elem_of_union, elem_of_singleton. tauto.
  - eexists. exact Hvec.
Qed.

Lemma firq_probe_success_state_witness :
  drvdata (exec (firq_probe quad pdev_ok) (idle_world 3))
  = Some (priv_of pdev_ok)
  ∧ (∀ l, l ∈ fiq_lines (exec (firq_probe quad pdev_ok) (idle_world 3))
          ↔ l = pd_irq pdev_ok ∨ l ∈ fiq_lines (idle_world 3))
  ∧ fiq_masked (exec (firq_probe quad pdev_ok) (idle_world 3))
    = fiq_masked (idle_world 3)
  ∧ cur_cpu (exec (firq_probe quad pdev_ok) (idle_world 3))
    = cur_cpu (idle_world 3)
  ∧ ∃ len, fiq_vector (exec (firq_probe quad pdev_ok) (idle_world 3))
           = Some (firq_fiq_handler quad, len).
Proof.
  apply (firq_probe_success_state quad pdev_ok (idle_world 3)).
  - reflexivity.
  - unfold valid_resources. cbn. repeat split; lia.
  - reflexivity.
Defined.
